(** * The lasertag transmitter state machine (src/lasertag/transmitter.c)

    A shallow embedding of the tick-driven transmitter: the module-level
    variables of the C file become one record, every C function becomes a
    function on that record, and the two places where the C code has no
    defined behaviour (an index outside the frequency table, a remainder by
    a zero period) make the embedded function return [None].

    Integers are modelled in [Z] with the wrap-around of their C type written
    out.  All operands of [%], [/], [<] and [>] in the source are unsigned and
    promoted without change of value, so the C operators coincide with
    [Z.modulo], [Z.div], [Z.ltb] and [Z.gtb] on the modelled values. *)

From Stdlib Require Import ZArith List Bool Lia.
Import ListNotations.
Local Open Scope Z_scope.

(** ** Data model *)

(** [enum transmitter_st_t] *)
Inductive transmitter_st_t : Type :=
| init_st
| wait_st
| sig_high_st
| sig_low_st.

Definition TRANSMITTER_HIGH_VALUE : Z := 1.
Definition TRANSMITTER_LOW_VALUE : Z := 0.

(** Conversions to the unsigned integer types of the source. *)
Definition to_uint8 (z : Z) : Z := z mod 256.
Definition to_uint16 (z : Z) : Z := z mod 65536.
Definition to_uint32 (z : Z) : Z := z mod 4294967296.

(** The static variables of transmitter.c, together with what the module has
    done to the mio collaborator: the debug flag handed to [mio_init], whether
    the output pin was configured, and the levels written to
    TRANSMITTER_OUTPUT_PIN, most recent first. *)
Record transmitter : Type := mkTransmitter {
  currentState : transmitter_st_t;
  signalTimer : Z;          (* uint16_t *)
  continuousModeOn : bool;
  running : bool;
  pulseWidth : Z;           (* uint32_t *)
  debugOn : bool;
  currentFrequency : Z;     (* uint8_t *)
  period : Z;               (* uint16_t *)
  mioDebug : bool;
  pinIsOutput : bool;
  pinWrites : list Z
}.

Definition set_currentState (v : transmitter_st_t) (s : transmitter) : transmitter :=
  mkTransmitter v (signalTimer s) (continuousModeOn s) (running s)
    (pulseWidth s) (debugOn s) (currentFrequency s) (period s)
    (mioDebug s) (pinIsOutput s) (pinWrites s).

Definition set_signalTimer (v : Z) (s : transmitter) : transmitter :=
  mkTransmitter (currentState s) v (continuousModeOn s) (running s)
    (pulseWidth s) (debugOn s) (currentFrequency s) (period s)
    (mioDebug s) (pinIsOutput s) (pinWrites s).

Definition set_continuousModeOn (v : bool) (s : transmitter) : transmitter :=
  mkTransmitter (currentState s) (signalTimer s) v (running s)
    (pulseWidth s) (debugOn s) (currentFrequency s) (period s)
    (mioDebug s) (pinIsOutput s) (pinWrites s).

Definition set_running (v : bool) (s : transmitter) : transmitter :=
  mkTransmitter (currentState s) (signalTimer s) (continuousModeOn s) v
    (pulseWidth s) (debugOn s) (currentFrequency s) (period s)
    (mioDebug s) (pinIsOutput s) (pinWrites s).

Definition set_pulseWidth (v : Z) (s : transmitter) : transmitter :=
  mkTransmitter (currentState s) (signalTimer s) (continuousModeOn s) (running s)
    v (debugOn s) (currentFrequency s) (period s)
    (mioDebug s) (pinIsOutput s) (pinWrites s).

Definition set_debugOn (v : bool) (s : transmitter) : transmitter :=
  mkTransmitter (currentState s) (signalTimer s) (continuousModeOn s) (running s)
    (pulseWidth s) v (currentFrequency s) (period s)
    (mioDebug s) (pinIsOutput s) (pinWrites s).

Definition set_currentFrequency (v : Z) (s : transmitter) : transmitter :=
  mkTransmitter (currentState s) (signalTimer s) (continuousModeOn s) (running s)
    (pulseWidth s) (debugOn s) v (period s)
    (mioDebug s) (pinIsOutput s) (pinWrites s).

Definition set_period (v : Z) (s : transmitter) : transmitter :=
  mkTransmitter (currentState s) (signalTimer s) (continuousModeOn s) (running s)
    (pulseWidth s) (debugOn s) (currentFrequency s) v
    (mioDebug s) (pinIsOutput s) (pinWrites s).

(** The mio collaborator, as far as the transmitter uses it. *)
Definition mio_init (dbg : bool) (s : transmitter) : transmitter :=
  mkTransmitter (currentState s) (signalTimer s) (continuousModeOn s) (running s)
    (pulseWidth s) (debugOn s) (currentFrequency s) (period s)
    dbg (pinIsOutput s) (pinWrites s).

Definition mio_setPinAsOutput (s : transmitter) : transmitter :=
  mkTransmitter (currentState s) (signalTimer s) (continuousModeOn s) (running s)
    (pulseWidth s) (debugOn s) (currentFrequency s) (period s)
    (mioDebug s) true (pinWrites s).

Definition mio_writePin (level : Z) (s : transmitter) : transmitter :=
  mkTransmitter (currentState s) (signalTimer s) (continuousModeOn s) (running s)
    (pulseWidth s) (debugOn s) (currentFrequency s) (period s)
    (mioDebug s) (pinIsOutput s) (level :: pinWrites s).

(** The level currently driven on the output pin: the last one written. *)
Definition pin_level (s : transmitter) : option Z := hd_error (pinWrites s).

(** A small error monad: [None] is an execution without defined behaviour. *)
Definition bind {A B : Type} (m : option A) (f : A -> option B) : option B :=
  match m with
  | Some a => f a
  | None => None
  end.

Notation "x <- m ;; k" := (bind m (fun x => k))
  (at level 61, m at next level, right associativity).

(** The calls a client can make between two observations. *)
Inductive call : Type :=
| Tick
| Run
| SetFrequencyNumber (n : Z)
| SetContinuousMode (flag : bool)
| SetContinuousModeOn (flag : bool)
| SetPulseWidth (width : Z)
| SetDebug (flag : bool).

(** ** Operations *)

Section Machine.

(** [filter_frequencyTickTable] is declared in filter.h, which is not part of
    the sources at hand: the table is a parameter of the model. *)
Variable filter_frequencyTickTable : list Z.

(** [TRANSMITTER_PULSE_WIDTH] comes from transmitter.h, likewise absent. *)
Variable TRANSMITTER_PULSE_WIDTH : Z.

(** The values of the static variables when the program starts. *)
Definition power_on : transmitter :=
  mkTransmitter init_st 0 false false (to_uint32 TRANSMITTER_PULSE_WIDTH)
    false 0 0 false false [].

(** [filter_frequencyTickTable[currentFrequency]], converted to [uint16_t]. *)
Definition table_period (s : transmitter) : option Z :=
  option_map to_uint16
    (nth_error filter_frequencyTickTable (Z.to_nat (currentFrequency s))).

Definition transmitter_setDebug (on : bool) (s : transmitter) : transmitter :=
  set_debugOn on s.

Definition transmitter_setPulseWidth (width : Z) (s : transmitter) : transmitter :=
  set_pulseWidth (to_uint32 width) s.

Definition transmitter_setContinuousModeOn (on : bool) (s : transmitter) : transmitter :=
  set_continuousModeOn on s.

Definition transmitter_init (s : transmitter) : option transmitter :=
  let s := set_currentState init_st s in
  let s := set_signalTimer 0 s in
  let s := set_running false s in
  p <- table_period s ;;
  let s := set_period p s in
  let s := mio_init (debugOn s) s in
  Some (mio_setPinAsOutput s).

(** The first [switch] of [transmitter_tick]. *)
Definition transition (s : transmitter) : option transmitter :=
  match currentState s with
  | init_st => Some (set_currentState wait_st s)
  | wait_st =>
      if running s then
        let s := if negb (continuousModeOn s) then set_running false s else s in
        let s := mio_writePin TRANSMITTER_HIGH_VALUE s in
        p <- table_period s ;;
        let s := set_period p s in
        let s := set_signalTimer 0 s in
        Some (set_currentState sig_high_st s)
      else Some s
  | sig_high_st =>
      if period s =? 0 then None
      else if signalTimer s mod period s >? period s / 2 then
        Some (mio_writePin TRANSMITTER_LOW_VALUE (set_currentState sig_low_st s))
      else Some s
  | sig_low_st =>
      if signalTimer s >? pulseWidth s then
        Some (set_currentState wait_st s)
      else if period s =? 0 then None
      else if signalTimer s mod period s <? period s / 2 then
        Some (mio_writePin TRANSMITTER_HIGH_VALUE (set_currentState sig_high_st s))
      else Some s
  end.

(** The second [switch] of [transmitter_tick]. *)
Definition action (s : transmitter) : transmitter :=
  match currentState s with
  | init_st => s
  | wait_st => s
  | sig_high_st => set_signalTimer (to_uint16 (signalTimer s + 1)) s
  | sig_low_st => set_signalTimer (to_uint16 (signalTimer s + 1)) s
  end.

Definition transmitter_tick (s : transmitter) : option transmitter :=
  s <- transition s ;;
  Some (action s).

Definition transmitter_run (s : transmitter) : transmitter :=
  set_running true s.

Definition transmitter_running (s : transmitter) : bool := running s.

Definition transmitter_setFrequencyNumber (frequencyNumber : Z) (s : transmitter)
  : transmitter :=
  set_currentFrequency (to_uint8 (to_uint16 frequencyNumber)) s.

Definition transmitter_getFrequencyNumber (s : transmitter) : Z :=
  to_uint16 (currentFrequency s).

Definition transmitter_setContinuousMode (continuousModeFlag : bool) (s : transmitter)
  : transmitter :=
  set_continuousModeOn continuousModeFlag s.

(** Running a client's calls in order. *)
Definition exec_call (c : call) (s : transmitter) : option transmitter :=
  match c with
  | Tick => transmitter_tick s
  | Run => Some (transmitter_run s)
  | SetFrequencyNumber n => Some (transmitter_setFrequencyNumber n s)
  | SetContinuousMode b => Some (transmitter_setContinuousMode b s)
  | SetContinuousModeOn b => Some (transmitter_setContinuousModeOn b s)
  | SetPulseWidth w => Some (transmitter_setPulseWidth w s)
  | SetDebug b => Some (transmitter_setDebug b s)
  end.

Fixpoint exec_calls (cs : list call) (s : transmitter) : option transmitter :=
  match cs with
  | [] => Some s
  | c :: cs' => s' <- exec_call c s ;; exec_calls cs' s'
  end.

(** [n] consecutive calls of [transmitter_tick]. *)
Fixpoint ticks (n : nat) (s : transmitter) : option transmitter :=
  match n with
  | O => Some s
  | S n' => s' <- transmitter_tick s ;; ticks n' s'
  end.

End Machine.

(** The machine is emitting a burst. *)
Definition in_signal (s : transmitter) : Prop :=
  currentState s = sig_high_st \/ currentState s = sig_low_st.

(** ** Predicates used by the statements *)

(** Two machines that differ at most in the pending-run flag, respectively in
    the frequency selection. *)
Definition eq_except_running (s1 s2 : transmitter) : Prop :=
  set_running false s1 = set_running false s2.

Definition eq_except_frequency (s1 s2 : transmitter) : Prop :=
  set_currentFrequency 0 s1 = set_currentFrequency 0 s2.

(** Calls that leave continuous mode switched on. *)
Definition keeps_continuous (c : call) : Prop :=
  match c with
  | SetContinuousMode false => False
  | SetContinuousModeOn false => False
  | _ => True
  end.

(** Calls that keep the pulse width at or above 2^16. *)
Definition keeps_wide (c : call) : Prop :=
  match c with
  | SetPulseWidth w => 65536 <= to_uint32 w
  | _ => True
  end.

(** The contract of the frequency table: every entry is a positive period,
    and only indices inside the table are selected. *)
Definition table_ok (table : list Z) : Prop :=
  Forall (fun v => 0 < to_uint16 v) table.

Definition valid_call (table : list Z) (c : call) : Prop :=
  match c with
  | SetFrequencyNumber n => (Z.to_nat (to_uint8 (to_uint16 n)) < length table)%nat
  | _ => True
  end.

(** A state from which a tick has defined behaviour, now and later. *)
Definition safe (table : list Z) (s : transmitter) : Prop :=
  (Z.to_nat (currentFrequency s) < length table)%nat /\
  (in_signal s -> 0 < period s).

(** The state reached by [transmitter_init] from [s0] followed by [cs]. *)
Definition after_init (table : list Z) (s0 : transmitter) (cs : list call)
  (s : transmitter) : Prop :=
  (s1 <- transmitter_init table s0 ;; exec_calls table cs s1) = Some s.

(** Claim C1 as the specification words it, at one state. *)
Definition running_iff_signalling (s : transmitter) : Prop :=
  transmitter_running s = true <->
  (in_signal s \/ (currentState s = wait_st /\ running s = true)).

(** [k] ticks from [s] during which the machine stays in the burst: every
    tick is taken from SignalHigh or SignalLow. *)
Definition stays_in_burst (table : list Z) (k : nat) (s : transmitter) : Prop :=
  forall j sj, (j < k)%nat -> ticks table j s = Some sj -> in_signal sj.

(** A burst under a pulse width that a 16-bit timer cannot exceed. *)
Definition wide_burst (s : transmitter) : Prop :=
  in_signal s /\ 65536 <= pulseWidth s /\
  0 <= signalTimer s < 65536 /\ 0 < period s.

(** The machine pairs the state with the level it last wrote. *)
Definition pin_matches (s : transmitter) : Prop :=
  (currentState s = sig_high_st -> pin_level s = Some TRANSMITTER_HIGH_VALUE) /\
  (currentState s = sig_low_st -> pin_level s = Some TRANSMITTER_LOW_VALUE).

(** Everything a burst leaves alone. *)
Definition same_config (s s' : transmitter) : Prop :=
  period s' = period s /\ pulseWidth s' = pulseWidth s /\
  running s' = running s /\ continuousModeOn s' = continuousModeOn s /\
  currentFrequency s' = currentFrequency s.

(** The state and the pin level that the square wave has at timer value [k]
    when the period is [T]: high during the first half period, low after. *)
Definition state_at (T k : Z) : transmitter_st_t :=
  if k mod T <=? T / 2 then sig_high_st else sig_low_st.

Definition level_at (T k : Z) : Z :=
  if k mod T <=? T / 2 then TRANSMITTER_HIGH_VALUE else TRANSMITTER_LOW_VALUE.

(** [burst_run n s s']: [n] ticks lead from [s] to [s'], each of them taken
    from SignalHigh or SignalLow. *)
Inductive burst_run (table : list Z) : nat -> transmitter -> transmitter -> Prop :=
| burst_run_O : forall s, burst_run table O s s
| burst_run_S : forall n s s1 s',
    in_signal s -> transmitter_tick table s = Some s1 ->
    burst_run table n s1 s' -> burst_run table (S n) s s'.

(** The burst started by the next tick of [s] is the square wave of period
    [T] for every timer value up to [P]: the tick that works with timer value
    [k] leaves the machine in the state and with the pin level of [k]. *)
Definition square_wave (table : list Z) (s : transmitter) (P T : Z) : Prop :=
  forall k, 0 <= k <= P ->
  exists s', ticks table (S (Z.to_nat k)) s = Some s' /\
             in_signal s' /\ signalTimer s' = k + 1 /\
             currentState s' = state_at T k /\
             pin_level s' = Some (level_at T k).

(** From [s] the machine emits exactly one burst of more than [P] ticks and
    then idles in Wait for good, reporting that it is not running. *)
Definition one_burst_then_idle (table : list Z) (s : transmitter) (P : Z) : Prop :=
  exists n s', ticks table n s = Some s' /\ P + 2 <= Z.of_nat n /\
    (forall m sm, (1 <= m < n)%nat -> ticks table m s = Some sm -> in_signal sm) /\
    currentState s' = wait_st /\ transmitter_running s' = false /\
    pin_level s' = Some TRANSMITTER_LOW_VALUE /\
    forall j, ticks table j s' = Some s'.

(** The state and the timer after each of the next [n] ticks. *)
Fixpoint trace (table : list Z) (n : nat) (s : transmitter)
  : list (transmitter_st_t * Z) :=
  match n with
  | O => []
  | S n' =>
      match transmitter_tick table s with
      | Some s' => (currentState s', signalTimer s') :: trace table n' s'
      | None => []
      end
  end.

Definition state_eqb (a b : transmitter_st_t) : bool :=
  match a, b with
  | init_st, init_st => true
  | wait_st, wait_st => true
  | sig_high_st, sig_high_st => true
  | sig_low_st, sig_low_st => true
  | _, _ => false
  end.

(** The state changes made by the next [n] ticks: the timer value the tick
    started with, the state it left and the state it entered. *)
Fixpoint transitions (table : list Z) (n : nat) (s : transmitter)
  : list (Z * transmitter_st_t * transmitter_st_t) :=
  match n with
  | O => []
  | S n' =>
      match transmitter_tick table s with
      | Some s' =>
          (if state_eqb (currentState s) (currentState s') then []
           else [(signalTimer s, currentState s, currentState s')])
          ++ transitions table n' s'
      | None => []
      end
  end.

(** ** Concrete machines used in the worked cases *)

(** A table of ten positive periods, one with the single period 10, and one
    with the single period 2. *)
Definition sample_table : list Z := [68; 58; 50; 44; 38; 34; 30; 28; 26; 24].
Definition table_10 : list Z := [10].
Definition table_2 : list Z := [2].

(** Idle in Wait, one-shot mode, pulse width 200, selection 0. *)
Definition idle_one_shot : transmitter :=
  mkTransmitter wait_st 0 false false 200 false 0 68 false true [].

(** Idle in Wait with continuous mode on. *)
Definition idle_continuous : transmitter :=
  mkTransmitter wait_st 0 true false 200 false 0 68 false true [].

(** Idle in Wait, one-shot mode, with the pulse widths 0, 2, 25 and 70000. *)
Definition idle_width (w : Z) : transmitter :=
  mkTransmitter wait_st 0 false false w false 0 10 false true [].

(** Three ticks into a one-shot burst of period 10 and pulse width 25. *)
Definition mid_burst : transmitter :=
  mkTransmitter sig_high_st 3 false false 25 false 0 10 false true [1].

(** At the start of a burst of period 10 and pulse width 25. *)
Definition burst_start : transmitter :=
  mkTransmitter sig_high_st 0 false false 25 false 0 10 false true [1].

(** In the low half of a burst that continuous mode started: the run request
    is still set. *)
Definition low_continuous : transmitter :=
  mkTransmitter sig_low_st 8 true true 25 false 0 10 false true [0; 1].

(** One tick into a burst that continuous mode started. *)
Definition high_continuous : transmitter :=
  mkTransmitter sig_high_st 1 true true 200 false 0 68 false true [1].

(** ** Further predicates and the test loop *)

(** The variables hold values of their C types. *)
Definition well_typed (s : transmitter) : Prop :=
  0 <= signalTimer s < 65536 /\ 0 <= period s < 65536 /\
  0 <= pulseWidth s < 4294967296 /\ 0 <= currentFrequency s < 256.

(** Calls other than [transmitter_run]. *)
Definition no_run (c : call) : Prop :=
  match c with
  | Run => False
  | _ => True
  end.

(** No burst in progress and no run request pending. *)
Definition idle (s : transmitter) : Prop :=
  (currentState s = init_st \/ currentState s = wait_st) /\ running s = false.

(** The pin level fits the state: high in SignalHigh, low in SignalLow, and
    not high in Init or Wait. *)
Definition pin_agrees (s : transmitter) : Prop :=
  (currentState s = sig_high_st -> pin_level s = Some TRANSMITTER_HIGH_VALUE) /\
  (currentState s = sig_low_st -> pin_level s = Some TRANSMITTER_LOW_VALUE) /\
  (currentState s = init_st \/ currentState s = wait_st ->
   pin_level s <> Some TRANSMITTER_HIGH_VALUE).

(** No two consecutive entries of a write log are equal. *)
Fixpoint alternating (l : list Z) : Prop :=
  match l with
  | a :: (b :: _) as t => a <> b /\ alternating t
  | _ => True
  end.

(** The write log, oldest write first, starts with a high level. *)
Definition starts_high (l : list Z) : Prop :=
  l = [] \/ last l TRANSMITTER_LOW_VALUE = TRANSMITTER_HIGH_VALUE.

(** What the pin and its write log look like in every reachable state. *)
Definition wave_log (s : transmitter) : Prop :=
  pin_agrees s /\ alternating (pinWrites s) /\ starts_high (pinWrites s).

(** The machine has just started a burst: SignalHigh, the timer at 1. *)
Definition at_burst_start (s : transmitter) : Prop :=
  currentState s = sig_high_st /\ signalTimer s = 1 /\
  pin_level s = Some TRANSMITTER_HIGH_VALUE.

(** The number of ticks from a run request in Wait to the return to Wait,
    for the pulse width [P] and the period [T]. *)
Definition one_shot_length (P T : Z) : Z :=
  if P mod T <=? T / 2 then P + 3 + T / 2 - P mod T else P + 2.

(** ** The polling test [transmitter_runTest]

    [transmitter_runTest] drives the machine from a loop of its own.  What it
    reads from the buttons and the switches is given to the model as the
    lists of the successive results of [buttons_read] and [switches_read];
    [printf] and [utils_msDelay] leave the machine alone and are left out.
    A loop of the source that would go on for ever exhausts the fuel of the
    model instead. *)
Inductive outcome (A : Type) : Type :=
| Finished (a : A)
| Undefined
| OutOfFuel
| OutOfInput.

Arguments Finished {A} a.
Arguments Undefined {A}.
Arguments OutOfFuel {A}.
Arguments OutOfInput {A}.

Section TestLoop.

Variable filter_frequencyTickTable : list Z.

(** From transmitter.h, buttons.h and filter.h, none of them at hand. *)
Variable TRANSMITTER_PULSE_WIDTH : Z.
Variable BUTTONS_BTN3_MASK : Z.
Variable FILTER_FREQUENCY_COUNT : Z.

(** [while (transmitter_running()) { transmitter_tick(); utils_msDelay(..); }] *)
Fixpoint tick_while_running (fuel : nat) (s : transmitter) : outcome transmitter :=
  if transmitter_running s then
    match fuel with
    | O => OutOfFuel
    | S fuel' =>
        match transmitter_tick filter_frequencyTickTable s with
        | Some s' => tick_while_running fuel' s'
        | None => Undefined
        end
    end
  else Finished s.

(** [switches_read() % FILTER_FREQUENCY_COUNT], stored in a [uint16_t]. *)
Definition switch_value (reading : Z) : option Z :=
  if FILTER_FREQUENCY_COUNT =? 0 then None
  else Some (to_uint16 (Z.rem reading FILTER_FREQUENCY_COUNT)).

(** The body of the outer loop for one reading of the switches. *)
Definition runTest_iteration (fuel : nat) (reading : Z) (s : transmitter)
  : outcome transmitter :=
  match switch_value reading with
  | None => Undefined
  | Some switchValue =>
      let s := transmitter_setFrequencyNumber switchValue s in
      let s := transmitter_run s in
      tick_while_running fuel s
  end.

(** [while (!(buttons_read() & BUTTONS_BTN3_MASK)) { ... }]: the result is
    the machine together with the button readings not yet consumed. *)
Fixpoint runTest_loop (fuel : nat) (buttons switches : list Z) (s : transmitter)
  : outcome (transmitter * list Z) :=
  match buttons with
  | [] => OutOfInput
  | b :: buttons' =>
      if Z.land b BUTTONS_BTN3_MASK =? 0 then
        match switches with
        | [] => OutOfInput
        | reading :: switches' =>
            match runTest_iteration fuel reading s with
            | Finished s' => runTest_loop fuel buttons' switches' s'
            | Undefined => Undefined
            | OutOfFuel => OutOfFuel
            | OutOfInput => OutOfInput
            end
        end
      else Finished (s, buttons')
  end.

(** [do { utils_msDelay(BOUNCE_DELAY); } while (buttons_read());] *)
Fixpoint wait_release (buttons : list Z) : option (list Z) :=
  match buttons with
  | [] => None
  | b :: buttons' => if b =? 0 then Some buttons' else wait_release buttons'
  end.

Definition transmitter_runTest (fuel : nat) (buttons switches : list Z)
  (s : transmitter) : outcome transmitter :=
  let s := transmitter_setDebug true s in
  let s := transmitter_setPulseWidth 200 s in
  match transmitter_init filter_frequencyTickTable s with
  | None => Undefined
  | Some s =>
      match runTest_loop fuel buttons switches s with
      | Finished (s, buttons') =>
          match wait_release buttons' with
          | None => OutOfInput
          | Some _ =>
              let s := transmitter_setDebug false s in
              Finished (transmitter_setPulseWidth TRANSMITTER_PULSE_WIDTH s)
          end
      | Undefined => Undefined
      | OutOfFuel => OutOfFuel
      | OutOfInput => OutOfInput
      end
  end.

End TestLoop.

(** What every pass of the loop of [transmitter_runTest] finds: one-shot
    mode, the pulse width of the test, and a machine that is either fresh
    from init or at the start of a burst. *)
Definition test_ready (s : transmitter) : Prop :=
  continuousModeOn s = false /\ pulseWidth s = 200 /\
  (currentState s = init_st \/ (at_burst_start s /\ 3 <= period s < 65536)).

(** Every period of the table is at least 3 ticks. *)
Definition table_periods_ok (table : list Z) : Prop :=
  Forall (fun v => 3 <= to_uint16 v) table.

(** * Properties *)

Section Properties.

Variable table : list Z.

Local Abbreviation tick := (transmitter_tick table).
Local Abbreviation nticks := (ticks table).
Local Abbreviation exec := (exec_calls table).
Local Abbreviation stays_in_burst := (stays_in_burst table).
Local Abbreviation burst_run := (burst_run table).

(** Case analysis over the innermost test of a tick. *)
Ltac branch :=
  match goal with
  | H : context [match ?x with _ => _ end] |- _ =>
      lazymatch x with
      | context [match _ with _ => _ end] => fail
      | _ => destruct x eqn:?
      end
  | |- context [match ?x with _ => _ end] =>
      lazymatch x with
      | context [match _ with _ => _ end] => fail
      | _ => destruct x eqn:?
      end
  end.

Ltac inv H := inversion H; subst; clear H.

(** Splits a machine into its fields and follows every branch of a tick. *)
Ltac tick_cases :=
  unfold transmitter_tick, transition, action, table_period, bind in *;
  cbn in *;
  repeat (branch; cbn in *; try discriminate).

(** ** Generic facts on call sequences *)

Lemma exec_app : forall cs1 cs2 s,
  exec (cs1 ++ cs2) s = (s' <- exec cs1 s ;; exec cs2 s').
Proof.
  induction cs1 as [|c cs1 IH]; intros cs2 s; cbn; [reflexivity|].
  destruct (exec_call table c s); cbn; auto.
Qed.

Lemma ticks_exec : forall n s, nticks n s = exec (repeat Tick n) s.
Proof.
  induction n as [|n IH]; intros s; cbn; [reflexivity|].
  destruct (tick s); cbn; auto.
Qed.

Lemma ticks_add : forall n m s,
  nticks (n + m) s = (s' <- nticks n s ;; nticks m s').
Proof.
  induction n as [|n IH]; intros m s; cbn; [reflexivity|].
  destruct (tick s); cbn; auto.
Qed.

(** An invariant kept by every permitted call holds after the sequence. *)
Lemma exec_invariant (P : transmitter -> Prop) (ok : call -> Prop) :
  (forall c s s', ok c -> P s -> exec_call table c s = Some s' -> P s') ->
  forall cs s s', Forall ok cs -> P s -> exec cs s = Some s' -> P s'.
Proof.
  intros step cs; induction cs as [|c cs IH]; intros s s' Hok HP Hex; cbn in Hex.
  - inv Hex; assumption.
  - inv Hok. destruct (exec_call table c s) as [s1|] eqn:E; cbn in Hex; [|discriminate].
    eapply IH; [eassumption | | eassumption].
    eapply step; eauto.
Qed.

(** A safe state stays safe, and a permitted call is defined on it. *)
Lemma nth_error_defined : forall (l : list Z) n,
  (n < length l)%nat -> exists v, nth_error l n = Some v.
Proof.
  intros l n H. destruct (nth_error l n) eqn:E; [eauto|].
  apply nth_error_None in E; lia.
Qed.

Lemma table_period_positive : forall s p,
  table_ok table -> table_period table s = Some p -> 0 < p.
Proof.
  unfold table_ok, table_period; intros s p Hok H.
  destruct (nth_error table (Z.to_nat (currentFrequency s))) as [v|] eqn:E;
    cbn in H; [|discriminate].
  inv H. rewrite Forall_forall in Hok. apply Hok.
  eapply nth_error_In; eauto.
Qed.

Lemma exec_call_safe : forall c s,
  table_ok table -> valid_call table c -> safe table s ->
  exists s', exec_call table c s = Some s' /\ safe table s'.
Proof.
  intros c s Htab Hc [Hfreq Hper].
  destruct c; cbn in *; try (eexists; split; [reflexivity|]; split; cbn; auto; fail).
  destruct (nth_error_defined table _ Hfreq) as [v Hv].
  assert (Hpos : 0 < to_uint16 v).
  { apply (table_period_positive s); auto. unfold table_period. rewrite Hv. reflexivity. }
  unfold in_signal in Hper.
  destruct s as [st t c r w d f p md po ws]; cbn in *.
  unfold safe, in_signal, transmitter_tick, transition, table_period; cbn.
  destruct st; cbn.
  - eexists; split; [reflexivity|]; cbn. split; [auto|]. intros [?|?]; discriminate.
  - destruct r; cbn.
    + destruct c; cbn; rewrite Hv; cbn; (eexists; split; [reflexivity|]; cbn; auto).
    + eexists; split; [reflexivity|]; cbn. split; [auto|]. intros [?|?]; discriminate.
  - assert (0 < p) by auto.
    destruct (p =? 0) eqn:E0; [apply Z.eqb_eq in E0; lia|].
    destruct (t mod p >? p / 2); cbn; (eexists; split; [reflexivity|]; cbn; auto).
  - assert (0 < p) by auto.
    destruct (t >? w); cbn.
    + eexists; split; [reflexivity|]; cbn. split; [auto|]. intros [?|?]; discriminate.
    + destruct (p =? 0) eqn:E0; [apply Z.eqb_eq in E0; lia|].
      destruct (t mod p <? p / 2); cbn; (eexists; split; [reflexivity|]; cbn; auto).
Qed.

Lemma exec_safe : forall cs s,
  table_ok table -> Forall (valid_call table) cs -> safe table s ->
  exists s', exec cs s = Some s' /\ safe table s'.
Proof.
  induction cs as [|c cs IH]; intros s Htab Hcs Hs; cbn.
  - eauto.
  - inv Hcs. destruct (exec_call_safe c s Htab H1 Hs) as (s1 & E1 & Hs1).
    rewrite E1; cbn. auto.
Qed.

(** ** The run request *)

(** No call other than [transmitter_init] clears the run request while
    continuous mode is on. *)
Lemma exec_call_keeps_running : forall c s s',
  keeps_continuous c ->
  continuousModeOn s = true /\ running s = true ->
  exec_call table c s = Some s' ->
  continuousModeOn s' = true /\ running s' = true.
Proof.
  intros c s s' Hc [Hm Hr] H.
  destruct s as [st t m r w d f p md po ws]; cbn in *; subst.
  destruct c as [| |n|[|]|[|]|w'|b]; cbn in *; try contradiction;
    try (inv H; cbn; auto; fail).
  tick_cases; inv H; cbn; auto.
Qed.

Lemma exec_keeps_running : forall cs s s',
  Forall keeps_continuous cs ->
  continuousModeOn s = true -> running s = true ->
  exec cs s = Some s' ->
  continuousModeOn s' = true /\ running s' = true.
Proof.
  intros cs s s' Hcs Hm Hr H.
  eapply (exec_invariant
            (fun s => continuousModeOn s = true /\ running s = true)
            keeps_continuous); eauto.
  intros; eapply exec_call_keeps_running; eauto.
Qed.

(** With continuous mode on, a burst is only ever entered with the request
    still set. *)
Lemma exec_call_signal_running : forall c s s',
  keeps_continuous c ->
  continuousModeOn s = true /\ (in_signal s -> running s = true) ->
  exec_call table c s = Some s' ->
  continuousModeOn s' = true /\ (in_signal s' -> running s' = true).
Proof.
  intros c s s' Hc [Hm Hr] H. unfold in_signal in *.
  destruct s as [st t m r w d f p md po ws]; cbn in *; subst.
  destruct c as [| |n|[|]|[|]|w'|b]; cbn in *; try contradiction;
    try (inv H; cbn; auto; fail).
  tick_cases; inv H; cbn; auto;
    try (split; [reflexivity|]; intros [?|?]; discriminate).
Qed.

Lemma init_not_in_signal : forall s0 s1,
  transmitter_init table s0 = Some s1 ->
  currentState s1 = init_st /\ running s1 = false /\
  continuousModeOn s1 = continuousModeOn s0.
Proof.
  intros s0 s1 H. unfold transmitter_init, bind in H.
  destruct (table_period table _); [|discriminate].
  inv H; cbn; auto.
Qed.

(** ** What [transmitter_running] reports *)

(** C1 (amended): after [transmitter_init] and any sequence of calls, a true
    answer of [transmitter_running] means that the machine is emitting a burst
    or holds a pending run request in Init or Wait; the answer is true
    whenever a request is pending in Init or Wait; and in a sequence that
    keeps continuous mode on, the answer is true throughout SignalHigh and
    SignalLow. *)
Theorem running_reports_request : forall s0 cs s,
  after_init table s0 cs s ->
  (transmitter_running s = true ->
   in_signal s \/
   ((currentState s = init_st \/ currentState s = wait_st) /\ running s = true)) /\
  ((currentState s = init_st \/ currentState s = wait_st) /\ running s = true ->
   transmitter_running s = true) /\
  (continuousModeOn s0 = true -> Forall keeps_continuous cs ->
   in_signal s -> transmitter_running s = true).
Proof.
  intros s0 cs s H. unfold after_init, bind in H.
  destruct (transmitter_init table s0) as [s1|] eqn:Ei; [|discriminate].
  unfold transmitter_running. split; [|split].
  - intros Hr. unfold in_signal.
    destruct (currentState s); auto.
  - intros [_ Hr]; exact Hr.
  - intros Hm Hcs.
    destruct (init_not_in_signal _ _ Ei) as (Hst & _ & Hm1).
    apply (exec_invariant
             (fun s => continuousModeOn s = true /\ (in_signal s -> running s = true))
             keeps_continuous exec_call_signal_running cs s1 s Hcs); auto.
    split; [congruence|]. unfold in_signal; rewrite Hst; intros [?|?]; discriminate.
Qed.

(** C4: with continuous mode on, once [transmitter_run] has been called every
    later observation of [transmitter_running] gives true, across ticks and
    any other calls that do not switch continuous mode off; on a table of
    positive periods with valid selections every such call sequence is
    defined. *)
Theorem continuous_mode_keeps_running : forall s cs,
  continuousModeOn s = true ->
  Forall keeps_continuous cs ->
  table_ok table -> Forall (valid_call table) cs -> safe table s ->
  exists s', exec cs (transmitter_run s) = Some s' /\
             transmitter_running s' = true.
Proof.
  intros s cs Hm Hcs Htab Hval Hsafe.
  assert (Hsafe' : safe table (transmitter_run s)).
  { destruct Hsafe as [Hf Hp]; split; cbn; auto. }
  destruct (exec_safe cs _ Htab Hval Hsafe') as (s' & E & _).
  exists s'; split; [exact E|].
  unfold transmitter_running.
  eapply (exec_keeps_running cs (transmitter_run s) s'); eauto.
Qed.

(** The same observation for any execution that is defined at all. *)
Lemma continuous_mode_keeps_running_partial : forall s cs s',
  continuousModeOn s = true ->
  Forall keeps_continuous cs ->
  exec cs (transmitter_run s) = Some s' ->
  transmitter_running s' = true.
Proof.
  intros s cs s' Hm Hcs E. unfold transmitter_running.
  eapply (exec_keeps_running cs (transmitter_run s) s'); eauto.
Qed.

(** ** Frequency selection *)


(** The period changes in one place only: the Wait to SignalHigh transition
    of a tick, where it becomes the table entry of the current selection. *)
Lemma exec_call_period : forall c s s',
  exec_call table c s = Some s' ->
  period s' <> period s ->
  c = Tick /\ currentState s = wait_st /\ currentState s' = sig_high_st.
Proof.
  intros c s s' H Hp.
  destruct s as [st t m r w d f p md po ws].
  destruct c; cbn in *; try (inv H; cbn in Hp; congruence).
  tick_cases; inv H; cbn in *; try congruence; auto.
Qed.

Lemma burst_start_period : forall s s',
  tick s = Some s' ->
  currentState s = wait_st -> currentState s' = sig_high_st ->
  table_period table s = Some (period s') /\ signalTimer s' = 1 /\
  pin_level s' = Some TRANSMITTER_HIGH_VALUE.
Proof.
  intros s s' H Hw Hh.
  destruct s as [st t m r w d f p md po ws]; cbn in *; subst.
  tick_cases; inv H; cbn in *; try discriminate; auto.
Qed.

(** While a burst is in flight a tick neither reads nor writes the
    selection. *)
Lemma tick_except_frequency : forall s1 s2 s1',
  in_signal s1 -> eq_except_frequency s1 s2 ->
  tick s1 = Some s1' ->
  exists s2', tick s2 = Some s2' /\ eq_except_frequency s1' s2' /\
              currentFrequency s2' = currentFrequency s2.
Proof.
  intros s1 s2 s1' Hin Heq H. unfold in_signal, eq_except_frequency in *.
  destruct s1 as [st t m r w d f p md po ws].
  destruct s2 as [st2 t2 m2 r2 w2 d2 f2 p2 md2 po2 ws2].
  cbn in *. inv Heq.
  destruct Hin as [->| ->]; tick_cases; inv H;
    (eexists; split; [reflexivity|]; cbn; auto).
Qed.

Lemma stays_in_burst_step : forall k s s1,
  stays_in_burst (S k) s -> tick s = Some s1 ->
  in_signal s /\ stays_in_burst k s1.
Proof.
  intros k s s1 H E. split.
  - apply (H 0%nat s); [lia|reflexivity].
  - intros j sj Hj Hsj. apply (H (S j) sj); [lia|]. cbn. rewrite E. exact Hsj.
Qed.

Lemma ticks_except_frequency : forall k s1 s2 s1',
  stays_in_burst k s1 -> eq_except_frequency s1 s2 ->
  nticks k s1 = Some s1' ->
  exists s2', nticks k s2 = Some s2' /\ eq_except_frequency s1' s2' /\
              currentFrequency s2' = currentFrequency s2.
Proof.
  induction k as [|k IH]; intros s1 s2 s1' Hb Heq H; cbn in H.
  - inv H. exists s2; cbn; auto.
  - destruct (tick s1) as [s1a|] eqn:E1; cbn in H; [|discriminate].
    destruct (stays_in_burst_step _ _ _ Hb E1) as [Hin Hb'].
    destruct (tick_except_frequency _ _ _ Hin Heq E1) as (s2a & E2 & Heq' & Hf).
    destruct (IH _ _ _ Hb' Heq' H) as (s2' & E2' & Heq'' & Hf').
    exists s2'. cbn. rewrite E2; cbn. repeat split; auto. congruence.
Qed.

Lemma burst_keeps_period : forall k s s',
  stays_in_burst k s -> nticks k s = Some s' -> period s' = period s.
Proof.
  induction k as [|k IH]; intros s s' Hb H; cbn in H.
  - inv H; reflexivity.
  - destruct (tick s) as [s1|] eqn:E1; cbn in H; [|discriminate].
    destruct (stays_in_burst_step _ _ _ Hb E1) as [Hin Hb'].
    rewrite (IH _ _ Hb' H).
    destruct (Z.eq_dec (period s1) (period s)) as [|Hne]; [assumption|].
    destruct (exec_call_period Tick s s1 E1 Hne) as (_ & Hw & _).
    destruct Hin as [Hs|Hs]; rewrite Hs in Hw; discriminate.
Qed.

Lemma init_period : forall s0 s1,
  transmitter_init table s0 = Some s1 ->
  table_period table s0 = Some (period s1).
Proof.
  intros s0 s1 H. unfold transmitter_init, bind in H.
  unfold table_period in *. cbn in H.
  destruct (nth_error table (Z.to_nat (currentFrequency s0))); cbn in *; [|discriminate].
  inv H. reflexivity.
Qed.


(** ** Calling [transmitter_run] during a burst *)

(** A tick never touches the configuration. *)
Lemma tick_keeps_config : forall s s',
  tick s = Some s' ->
  continuousModeOn s' = continuousModeOn s /\
  currentFrequency s' = currentFrequency s /\
  pulseWidth s' = pulseWidth s /\ debugOn s' = debugOn s.
Proof.
  intros s s' H. destruct s as [st t m r w d f p md po ws].
  tick_cases; inv H; cbn; auto.
Qed.

Lemma ticks_keep_config : forall k s s',
  nticks k s = Some s' ->
  continuousModeOn s' = continuousModeOn s /\
  currentFrequency s' = currentFrequency s /\
  pulseWidth s' = pulseWidth s /\ debugOn s' = debugOn s.
Proof.
  induction k as [|k IH]; intros s s' H; cbn in H.
  - inv H; auto.
  - destruct (tick s) as [s1|] eqn:E1; cbn in H; [|discriminate].
    destruct (tick_keeps_config _ _ E1) as (A & B & C & D).
    destruct (IH _ _ H) as (A' & B' & C' & D').
    repeat split; congruence.
Qed.

(** Inside a burst a tick neither reads nor writes the run request. *)
Lemma tick_except_running : forall s1 s2 s1',
  in_signal s1 -> eq_except_running s1 s2 ->
  tick s1 = Some s1' ->
  running s1' = running s1 /\
  exists s2', tick s2 = Some s2' /\ eq_except_running s1' s2' /\
              running s2' = running s2.
Proof.
  intros s1 s2 s1' Hin Heq H. unfold in_signal, eq_except_running in *.
  destruct s1 as [st t m r w d f p md po ws].
  destruct s2 as [st2 t2 m2 r2 w2 d2 f2 p2 md2 po2 ws2].
  cbn in *. inv Heq.
  destruct Hin as [->| ->]; tick_cases; inv H;
    (split; [reflexivity|]; eexists; split; [reflexivity|]; cbn; auto).
Qed.

Lemma ticks_except_running : forall k s1 s2 s1',
  stays_in_burst k s1 -> eq_except_running s1 s2 ->
  nticks k s1 = Some s1' ->
  running s1' = running s1 /\
  exists s2', nticks k s2 = Some s2' /\ eq_except_running s1' s2' /\
              running s2' = running s2.
Proof.
  induction k as [|k IH]; intros s1 s2 s1' Hb Heq H; cbn in H.
  - inv H. split; [reflexivity|]. exists s2; cbn; auto.
  - destruct (tick s1) as [s1a|] eqn:E1; cbn in H; [|discriminate].
    destruct (stays_in_burst_step _ _ _ Hb E1) as [Hin Hb'].
    destruct (tick_except_running _ _ _ Hin Heq E1) as (Hr & s2a & E2 & Heq' & Hf).
    destruct (IH _ _ _ Hb' Heq' H) as (Hr' & s2' & E2' & Heq'' & Hf').
    split; [congruence|].
    exists s2'. cbn. rewrite E2; cbn. repeat split; auto. congruence.
Qed.

(** The two ways a tick leaves Wait or stays there. *)
Lemma tick_wait_idle : forall s,
  currentState s = wait_st -> running s = false -> tick s = Some s.
Proof.
  intros s Hw Hr. destruct s as [st t m r w d f p md po ws]; cbn in *; subst.
  reflexivity.
Qed.

Lemma ticks_wait_idle : forall k s,
  currentState s = wait_st -> running s = false -> nticks k s = Some s.
Proof.
  induction k as [|k IH]; intros s Hw Hr; cbn; [reflexivity|].
  rewrite tick_wait_idle by assumption. cbn. auto.
Qed.

Lemma tick_wait_start : forall s p,
  currentState s = wait_st -> running s = true ->
  table_period table s = Some p ->
  tick s =
  Some (mkTransmitter sig_high_st 1 (continuousModeOn s) (continuousModeOn s)
          (pulseWidth s) (debugOn s) (currentFrequency s) p
          (mioDebug s) (pinIsOutput s) (TRANSMITTER_HIGH_VALUE :: pinWrites s)).
Proof.
  intros s p Hw Hr Hp. destruct s as [st t m r w d f p0 md po ws].
  unfold table_period in Hp. cbn in *; subst.
  unfold transmitter_tick, transition, table_period.
  destruct m; cbn in *; rewrite Hp; reflexivity.
Qed.

(** C3: [transmitter_setFrequencyNumber] leaves the cached period alone; a
    call changes the period only when it is the tick that goes from Wait to
    SignalHigh, and then the period is the table entry of the selection, as
    it is after [transmitter_init]; a burst in flight runs the same with and
    without a selection made during it, on the period it started with.  The
    tick that starts a burst always loads the table entry of the selection
    current at that moment; so a selection made during a burst is first
    observed when the next burst starts, on the tick after the burst in
    flight has returned to Wait with a run request pending. *)
Theorem frequency_change_deferred : forall s n,
  period (transmitter_setFrequencyNumber n s) = period s /\
  (forall c s1 s1', exec_call table c s1 = Some s1' -> period s1' <> period s1 ->
     c = Tick /\ currentState s1 = wait_st /\ currentState s1' = sig_high_st /\
     table_period table s1 = Some (period s1')) /\
  (forall s0 s1, transmitter_init table s0 = Some s1 ->
     table_period table s0 = Some (period s1)) /\
  (in_signal s -> forall k s',
     stays_in_burst k s -> nticks k s = Some s' ->
     exists s'', nticks k (transmitter_setFrequencyNumber n s) = Some s'' /\
                 eq_except_frequency s' s'' /\
                 period s'' = period s /\
                 currentFrequency s'' = to_uint8 (to_uint16 n)) /\
  (forall s1 T, currentState s1 = wait_st -> running s1 = true ->
     table_period table s1 = Some T ->
     exists s1', tick s1 = Some s1' /\ currentState s1' = sig_high_st /\
                 period s1' = T /\ signalTimer s1' = 1) /\
  (forall s1 s1', tick s1 = Some s1' -> currentState s1 = wait_st ->
     currentState s1' = sig_high_st ->
     table_period table s1 = Some (period s1')) /\
  (in_signal s -> forall k s' T,
     stays_in_burst k s -> nticks k s = Some s' ->
     currentState s' = wait_st -> running s' = true ->
     table_period table (transmitter_setFrequencyNumber n s) = Some T ->
     exists sh, nticks (S k) (transmitter_setFrequencyNumber n s) = Some sh /\
                currentState sh = sig_high_st /\ period sh = T /\
                currentFrequency sh = to_uint8 (to_uint16 n)).
Proof.
  intros s n.
  assert (Heq : eq_except_frequency s (transmitter_setFrequencyNumber n s)).
  { destruct s; reflexivity. }
  split; [reflexivity|]. split; [|split; [exact init_period|]].
  - intros c s1 s1' H Hp.
    destruct (exec_call_period _ _ _ H Hp) as (-> & Hw & Hh).
    repeat split; auto. cbn in H.
    apply (burst_start_period _ _ H Hw Hh).
  - split; [|split; [|split]].
    + intros Hin k s' Hb H.
      destruct (ticks_except_frequency _ _ _ _ Hb Heq H) as (s'' & E & Heq' & Hf).
      exists s''. repeat split; auto.
      rewrite <- (burst_keeps_period _ _ _ Hb H).
      unfold eq_except_frequency in Heq'.
      apply (f_equal period) in Heq'. cbn in Heq'. congruence.
    + intros s1 T Hw Hr HT. eexists.
      split; [apply (tick_wait_start s1 T Hw Hr HT)|].
      repeat split; reflexivity.
    + intros s1 s1' H Hw Hh. apply (burst_start_period _ _ H Hw Hh).
    + intros Hin k s' T Hb H Hw Hr HT.
      destruct (ticks_except_frequency _ _ _ _ Hb Heq H) as (s'' & E & Heq' & Hf).
      unfold eq_except_frequency in Heq'.
      assert (Hw'' : currentState s'' = wait_st).
      { apply (f_equal currentState) in Heq'. cbn in Heq'. congruence. }
      assert (Hr'' : running s'' = true).
      { apply (f_equal running) in Heq'. cbn in Heq'. congruence. }
      assert (HT'' : table_period table s'' = Some T).
      { unfold table_period in *. rewrite Hf. exact HT. }
      eexists. replace (S k) with (k + 1)%nat by lia.
      rewrite ticks_add, E. cbn [bind ticks].
      rewrite (tick_wait_start s'' T Hw'' Hr'' HT''). cbn [bind].
      split; [reflexivity|]. cbn. repeat split; auto.
Qed.

(** C5 (amended): in non-continuous mode a [transmitter_run] made during a
    burst changes nothing but the run request, is without effect when the
    request is already set, and leaves the burst in flight as it was (state,
    timer, period and pin writes agree tick by tick); the latched request
    then starts one more burst on the tick after the machine is back in Wait,
    where the machine without the call stays idle. *)
Theorem run_during_burst_latches : forall s,
  in_signal s -> continuousModeOn s = false ->
  eq_except_running s (transmitter_run s) /\
  (running s = true -> transmitter_run s = s) /\
  transmitter_run (transmitter_run s) = transmitter_run s /\
  (forall k s', stays_in_burst k s -> nticks k s = Some s' ->
     exists s'', nticks k (transmitter_run s) = Some s'' /\
                 eq_except_running s' s'' /\ running s'' = true) /\
  (forall k s' p, stays_in_burst k s -> nticks k s = Some s' ->
     currentState s' = wait_st -> running s = false ->
     table_period table s = Some p ->
     nticks (S k) s = Some s' /\
     exists s'', nticks (S k) (transmitter_run s) = Some s'' /\
                 currentState s'' = sig_high_st /\ running s'' = false /\
                 pinWrites s'' = TRANSMITTER_HIGH_VALUE :: pinWrites s').
Proof.
  intros s Hin Hm.
  assert (Heq : eq_except_running s (transmitter_run s)) by (destruct s; reflexivity).
  split; [exact Heq|]. split; [|split; [|split]].
  - intros Hr. destruct s; cbn in *; subst; reflexivity.
  - reflexivity.
  - intros k s' Hb H.
    destruct (ticks_except_running _ _ _ _ Hb Heq H) as (_ & s'' & E & Heq' & Hr).
    exists s''; auto.
  - intros k s' p Hb H Hw Hr Hp.
    destruct (ticks_except_running _ _ _ _ Hb Heq H) as (Hr' & s'' & E & Heq' & Hr'').
    destruct (ticks_keep_config _ _ _ H) as (Hc & Hf & _).
    split.
    + replace (S k) with (k + 1)%nat by lia. rewrite ticks_add, H. cbn.
      rewrite tick_wait_idle by congruence. reflexivity.
    + unfold eq_except_running in Heq'.
      assert (Hst : currentState s'' = wait_st).
      { apply (f_equal currentState) in Heq'. cbn in Heq'. congruence. }
      assert (Hm'' : continuousModeOn s'' = false).
      { apply (f_equal continuousModeOn) in Heq'. cbn in Heq'. congruence. }
      assert (Hf'' : currentFrequency s'' = currentFrequency s).
      { apply (f_equal currentFrequency) in Heq'. cbn in Heq'. congruence. }
      assert (Hw'' : pinWrites s'' = pinWrites s').
      { apply (f_equal pinWrites) in Heq'. cbn in Heq'. congruence. }
      assert (Hp'' : table_period table s'' = Some p).
      { unfold table_period in *. rewrite Hf''. exact Hp. }
      eexists. replace (S k) with (k + 1)%nat by lia. rewrite ticks_add, E. cbn.
      rewrite (tick_wait_start s'' p Hst Hr'' Hp''). cbn.
      split; [reflexivity|]. cbn. rewrite Hm'', Hw''. auto.
Qed.

(** ** A pulse width that the 16-bit timer cannot exceed *)

Lemma exec_call_wide_burst : forall c s,
  keeps_wide c -> wide_burst s ->
  exists s', exec_call table c s = Some s' /\ wide_burst s'.
Proof.
  intros c s Hc (Hin & Hw & Ht & Hp). unfold wide_burst, in_signal in *.
  destruct s as [st t m r w d f p md po ws]; cbn in *.
  assert (Hu : 0 <= to_uint16 (t + 1) < 65536)
    by (unfold to_uint16; apply Z.mod_pos_bound; lia).
  destruct c; cbn in *;
    try (eexists; split; [reflexivity|]; cbn; auto; fail).
  unfold transmitter_tick, transition.
  destruct Hin as [->| ->]; cbn.
  - destruct (p =? 0) eqn:E0; [apply Z.eqb_eq in E0; lia|].
    destruct (t mod p >? p / 2); cbn;
      (eexists; split; [reflexivity|]; cbn; auto).
  - destruct (t >? w) eqn:E1; [apply Z.gtb_gt in E1; lia|].
    destruct (p =? 0) eqn:E0; [apply Z.eqb_eq in E0; lia|].
    destruct (t mod p <? p / 2); cbn;
      (eexists; split; [reflexivity|]; cbn; auto).
Qed.

Lemma exec_wide_burst : forall cs s,
  Forall keeps_wide cs -> wide_burst s ->
  exists s', exec cs s = Some s' /\ wide_burst s'.
Proof.
  induction cs as [|c cs IH]; intros s Hcs Hs; cbn.
  - eauto.
  - inv Hcs. destruct (exec_call_wide_burst c s H1 Hs) as (s1 & E1 & Hs1).
    rewrite E1; cbn. auto.
Qed.


(** ** The shape of a burst *)

Lemma mod_succ_cases : forall T t,
  0 < T -> 0 <= t ->
  ((t + 1) mod T = t mod T + 1 /\ t mod T + 1 < T) \/
  ((t + 1) mod T = 0 /\ t mod T = T - 1).
Proof.
  intros T t HT Ht.
  pose proof (Z.mod_pos_bound t T HT) as Hb.
  destruct (Z.eq_dec (t mod T) (T - 1)) as [E|E].
  - right. split; [|exact E].
    rewrite <- Zplus_mod_idemp_l, E.
    replace (T - 1 + 1) with (1 * T) by lia. apply Z_mod_mult.
  - left. split; [|lia].
    rewrite <- Zplus_mod_idemp_l. apply Z.mod_small. lia.
Qed.

Lemma timer_succ : forall t, 0 <= t < 65535 -> to_uint16 (t + 1) = t + 1.
Proof. intros t Ht. unfold to_uint16. apply Z.mod_small. lia. Qed.

(** One tick taken in SignalHigh, and one taken in SignalLow. *)
Lemma tick_high : forall s,
  currentState s = sig_high_st -> 0 < period s -> 0 <= signalTimer s < 65535 ->
  tick s =
  Some (if signalTimer s mod period s >? period s / 2
        then mkTransmitter sig_low_st (signalTimer s + 1) (continuousModeOn s)
               (running s) (pulseWidth s) (debugOn s) (currentFrequency s)
               (period s) (mioDebug s) (pinIsOutput s)
               (TRANSMITTER_LOW_VALUE :: pinWrites s)
        else set_signalTimer (signalTimer s + 1) s).
Proof.
  intros s Hs Hp Ht. destruct s as [st t m r w d f p md po ws]; cbn in *; subst.
  unfold transmitter_tick, transition; cbn.
  destruct (p =? 0) eqn:E0; [apply Z.eqb_eq in E0; lia|].
  destruct (t mod p >? p / 2); cbn; rewrite timer_succ by lia; reflexivity.
Qed.

Lemma tick_low : forall s,
  currentState s = sig_low_st -> 0 < period s -> 0 <= signalTimer s < 65535 ->
  tick s =
  Some (if signalTimer s >? pulseWidth s then set_currentState wait_st s
        else if signalTimer s mod period s <? period s / 2
        then mkTransmitter sig_high_st (signalTimer s + 1) (continuousModeOn s)
               (running s) (pulseWidth s) (debugOn s) (currentFrequency s)
               (period s) (mioDebug s) (pinIsOutput s)
               (TRANSMITTER_HIGH_VALUE :: pinWrites s)
        else set_signalTimer (signalTimer s + 1) s).
Proof.
  intros s Hs Hp Ht. destruct s as [st t m r w d f p md po ws]; cbn in *; subst.
  unfold transmitter_tick, transition; cbn.
  destruct (t >? w); cbn; [reflexivity|].
  destruct (p =? 0) eqn:E0; [apply Z.eqb_eq in E0; lia|].
  destruct (t mod p <? p / 2); cbn; rewrite timer_succ by lia; reflexivity.
Qed.

(** [burst_run] against [ticks] and [stays_in_burst]. *)
Lemma burst_run_ticks : forall n s s',
  burst_run n s s' -> nticks n s = Some s' /\ stays_in_burst n s.
Proof.
  induction 1 as [s|n s s1 s' Hin E Hrun [IH1 IH2]].
  - split; [reflexivity|]. intros j sj Hj; lia.
  - split; [cbn; rewrite E; exact IH1|].
    intros [|j] sj Hj Hsj; cbn in Hsj.
    + inv Hsj; assumption.
    + rewrite E in Hsj; cbn in Hsj. apply (IH2 j sj); [lia|assumption].
Qed.

Lemma ticks_burst_run : forall n s s',
  nticks n s = Some s' -> stays_in_burst n s -> burst_run n s s'.
Proof.
  induction n as [|n IH]; intros s s' H Hb; cbn in H.
  - inv H; constructor.
  - destruct (tick s) as [s1|] eqn:E; cbn in H; [|discriminate].
    destruct (stays_in_burst_step _ _ _ Hb E) as [Hin Hb'].
    econstructor; eauto.
Qed.

Lemma burst_run_app : forall n m s s1 s',
  burst_run n s s1 -> burst_run m s1 s' -> burst_run (n + m) s s'.
Proof.
  induction 1 as [s|n s sa s1 Hin E Hrun IH]; intros H2; cbn.
  - exact H2.
  - econstructor; eauto.
Qed.

Lemma burst_run_snoc : forall n s s1 s',
  burst_run n s s1 -> in_signal s1 -> tick s1 = Some s' ->
  burst_run (S n) s s'.
Proof.
  intros n s s1 s' H Hin E.
  replace (S n) with (n + 1)%nat by lia.
  eapply burst_run_app; [exact H|]. econstructor; eauto. constructor.
Qed.

Lemma same_config_refl : forall s, same_config s s.
Proof. intros s; unfold same_config; auto. Qed.

Lemma same_config_trans : forall s1 s2 s3,
  same_config s1 s2 -> same_config s2 s3 -> same_config s1 s3.
Proof.
  unfold same_config; intros s1 s2 s3 (A & B & C & D & E) (A' & B' & C' & D' & E').
  repeat split; congruence.
Qed.

(** Up to a timer value equal to the pulse width the burst is the square
    wave: entered in SignalHigh with the timer at 1, after [k] more ticks the
    timer is at [k + 1] and state and pin are those of timer value [k]. *)
Lemma burst_pattern : forall (k : nat) s,
  currentState s = sig_high_st -> signalTimer s = 1 ->
  pin_level s = Some TRANSMITTER_HIGH_VALUE ->
  3 <= period s -> Z.of_nat k <= pulseWidth s -> pulseWidth s < 65535 ->
  exists s', burst_run k s s' /\ same_config s s' /\
             signalTimer s' = Z.of_nat k + 1 /\
             currentState s' = state_at (period s) (Z.of_nat k) /\
             pin_level s' = Some (level_at (period s) (Z.of_nat k)).
Proof.
  induction k as [|k IH]; intros s Hs Ht Hpin HT Hk HP.
  - exists s. split; [constructor|]. split; [apply same_config_refl|].
    unfold state_at, level_at. rewrite Z.mod_0_l by lia.
    assert (E : (0 <=? period s / 2) = true).
    { apply Z.leb_le. apply Z.div_pos; lia. }
    cbn. rewrite E. auto.
  - destruct (IH s Hs Ht Hpin HT ltac:(lia) HP)
      as (s1 & Hrun & Hcfg & Ht1 & Hs1 & Hp1).
    destruct Hcfg as (Hper & Hpw & Hr & Hm & Hf).
    set (T := period s) in *. set (K := Z.of_nat k) in *.
    assert (HK : 0 <= K) by (subst K; lia).
    assert (HS : Z.of_nat (S k) = K + 1) by (subst K; lia).
    rewrite HS in *.
    pose proof (Z.mod_pos_bound K T ltac:(lia)) as HmK.
    pose proof (Z.mod_pos_bound (K + 1) T ltac:(lia)) as HmK1.
    assert (Hhalf : 1 <= T / 2 /\ T / 2 + 1 < T).
    { split.
      - apply Z.div_le_lower_bound; lia.
      - assert (2 * (T / 2) <= T) by (apply Z.mul_div_le; lia).
        assert (T / 2 < T) by (apply Z.div_lt; lia). lia. }
    unfold state_at, level_at in *.
    destruct (K mod T <=? T / 2) eqn:Eph.
    + (* in SignalHigh *)
      apply Z.leb_le in Eph.
      assert (Hin : in_signal s1) by (left; assumption).
      pose proof (tick_high s1 Hs1 ltac:(lia) ltac:(lia)) as Etick.
      rewrite Hper, Ht1 in Etick.
      destruct (mod_succ_cases T K ltac:(lia) HK) as [[E1 _]|[E1 E2]]; [|lia].
      destruct ((K + 1) mod T >? T / 2) eqn:Ec.
      * apply Z.gtb_gt in Ec.
        eexists. split; [eapply burst_run_snoc; eauto|].
        assert (El : ((K + 1) mod T <=? T / 2) = false) by (apply Z.leb_gt; lia).
        rewrite El. cbn. unfold same_config; cbn. repeat split; auto.
      * assert (El : (K + 1) mod T <= T / 2).
        { destruct (Z.gtb_spec ((K + 1) mod T) (T / 2)); [discriminate|lia]. }
        eexists. split; [eapply burst_run_snoc; eauto|].
        apply Z.leb_le in El. rewrite El. cbn.
        unfold same_config; cbn. repeat split; auto.
    + (* in SignalLow *)
      apply Z.leb_gt in Eph.
      assert (Hin : in_signal s1) by (right; assumption).
      pose proof (tick_low s1 Hs1 ltac:(lia) ltac:(lia)) as Etick.
      rewrite Hper, Ht1, Hpw in Etick.
      assert (Ew : (K + 1 >? pulseWidth s) = false).
      { destruct (Z.gtb_spec (K + 1) (pulseWidth s)); [lia|reflexivity]. }
      rewrite Ew in Etick.
      destruct (mod_succ_cases T K ltac:(lia) HK) as [[E1 E2]|[E1 E2]].
      * assert (Ec : ((K + 1) mod T <? T / 2) = false) by (apply Z.ltb_ge; lia).
        rewrite Ec in Etick.
        eexists. split; [eapply burst_run_snoc; eauto|].
        assert (El : ((K + 1) mod T <=? T / 2) = false) by (apply Z.leb_gt; lia).
        rewrite El. cbn. unfold same_config; cbn. repeat split; auto.
      * assert (Ec : ((K + 1) mod T <? T / 2) = true) by (apply Z.ltb_lt; lia).
        rewrite Ec in Etick.
        eexists. split; [eapply burst_run_snoc; eauto|].
        assert (El : ((K + 1) mod T <=? T / 2) = true) by (apply Z.leb_le; lia).
        rewrite El. cbn. unfold same_config; cbn. repeat split; auto.
Qed.


Lemma tick_low_wait : forall s,
  currentState s = sig_low_st -> pulseWidth s < signalTimer s ->
  tick s = Some (set_currentState wait_st s).
Proof.
  intros s Hs Ht. destruct s as [st t m r w d f p md po ws]; cbn in *; subst.
  unfold transmitter_tick, transition; cbn.
  destruct (Z.gtb_spec t w); [reflexivity|lia].
Qed.

Lemma half_period_bounds : forall T, 3 <= T -> 1 <= T / 2 /\ T / 2 + 1 < T.
Proof.
  intros T HT. split.
  - apply Z.div_le_lower_bound; lia.
  - assert (2 * (T / 2) <= T) by (apply Z.mul_div_le; lia).
    assert (T / 2 < T) by (apply Z.div_lt; lia). lia.
Qed.

(** Past the pulse width, a machine in SignalHigh finishes the high half
    period, goes low and returns to Wait on the tick after. *)
Lemma high_exits : forall (d : nat) s,
  currentState s = sig_high_st -> 3 <= period s ->
  pulseWidth s < signalTimer s -> 0 <= signalTimer s ->
  period s / 2 + 1 <= signalTimer s mod period s + Z.of_nat d ->
  (d <> 0%nat -> signalTimer s mod period s + Z.of_nat d = period s / 2 + 1) ->
  signalTimer s + Z.of_nat d + 1 <= 65535 ->
  exists s', burst_run (d + 2) s s' /\ currentState s' = wait_st /\
             same_config s s' /\ pin_level s' = Some TRANSMITTER_LOW_VALUE /\
             signalTimer s' = signalTimer s + Z.of_nat d + 1.
Proof.
  induction d as [|d IH]; intros s Hs HT HP Ht Hd Hd' Hmax.
  - assert (Hin : in_signal s) by (left; assumption).
    pose proof (tick_high s Hs ltac:(lia) ltac:(lia)) as E1.
    assert (Ec : (signalTimer s mod period s >? period s / 2) = true).
    { apply Z.gtb_gt. lia. }
    rewrite Ec in E1.
    match type of E1 with _ = Some ?x => set (s1 := x) in * end.
    assert (E2 : tick s1 = Some (set_currentState wait_st s1)).
    { apply tick_low_wait; subst s1; cbn; [reflexivity|lia]. }
    exists (set_currentState wait_st s1). split.
    + econstructor; [exact Hin|exact E1|].
      econstructor; [right; reflexivity|exact E2|constructor].
    + subst s1; unfold same_config; cbn. repeat split; auto. lia.
  - assert (Hin : in_signal s) by (left; assumption).
    pose proof (half_period_bounds _ HT) as [Hh1 Hh2].
    pose proof (Z.mod_pos_bound (signalTimer s) (period s) ltac:(lia)) as Hm.
    pose proof (tick_high s Hs ltac:(lia) ltac:(lia)) as E1.
    specialize (Hd' ltac:(lia)).
    assert (Ec : (signalTimer s mod period s >? period s / 2) = false).
    { destruct (Z.gtb_spec (signalTimer s mod period s) (period s / 2)); [lia|reflexivity]. }
    rewrite Ec in E1.
    destruct (mod_succ_cases (period s) (signalTimer s) ltac:(lia) Ht)
      as [[M1 M2]|[M1 M2]]; [|lia].
    destruct (IH (set_signalTimer (signalTimer s + 1) s))
      as (s' & Hrun & Hw & Hcfg & Hpin & Ht'); cbn; auto; try lia.
    destruct Hcfg as (A & B & C & D & E); cbn in *.
    exists s'. split; [econstructor; eauto|].
    unfold same_config. repeat split; auto; lia.
Qed.

(** Past the pulse width every burst ends. *)
Lemma burst_exits : forall s,
  in_signal s -> pin_matches s -> 3 <= period s ->
  pulseWidth s < signalTimer s -> 0 <= signalTimer s ->
  signalTimer s + period s / 2 + 2 <= 65535 ->
  exists n s', burst_run n s s' /\ currentState s' = wait_st /\
               same_config s s' /\ pin_level s' = Some TRANSMITTER_LOW_VALUE /\
               (1 <= n)%nat /\ Z.of_nat n <= period s / 2 + 3.
Proof.
  intros s [Hs|Hs] [Hpm1 Hpm2] HT HP Ht Hmax.
  - pose proof (half_period_bounds _ HT) as [Hh1 Hh2].
    pose proof (Z.mod_pos_bound (signalTimer s) (period s) ltac:(lia)) as Hm.
    destruct (Z_le_gt_dec (period s / 2 + 1) (signalTimer s mod period s)) as [Hc|Hc].
    + destruct (high_exits 0 s Hs HT HP Ht) as (s' & Hrun & Hw & Hcfg & Hpin & _);
        try lia.
      exists 2%nat, s'.
      split; [exact Hrun|]. split; [exact Hw|]. split; [exact Hcfg|].
      split; [exact Hpin|]. split; lia.
    + set (d := Z.to_nat (period s / 2 + 1 - signalTimer s mod period s)).
      assert (Hd : Z.of_nat d = period s / 2 + 1 - signalTimer s mod period s)
        by (subst d; apply Z2Nat.id; lia).
      clearbody d.
      destruct (high_exits d s Hs HT HP Ht) as (s' & Hrun & Hw & Hcfg & Hpin & _);
        try lia.
      exists (d + 2)%nat, s'.
      split; [exact Hrun|]. split; [exact Hw|]. split; [exact Hcfg|].
      split; [exact Hpin|]. split; lia.
  - exists 1%nat, (set_currentState wait_st s). split.
    + econstructor; [right; assumption|apply tick_low_wait; assumption|constructor].
    + pose proof (half_period_bounds _ HT).
      unfold same_config; cbn. repeat split; auto; lia.
Qed.

(** Ticks taken inside a burst keep the state paired with the pin level. *)
Lemma tick_in_signal : forall s,
  in_signal s -> 0 < period s -> 0 <= signalTimer s < 65535 ->
  signalTimer s <= pulseWidth s ->
  exists s', tick s = Some s' /\ in_signal s' /\ same_config s s' /\
             signalTimer s' = signalTimer s + 1 /\
             (pin_matches s -> pin_matches s').
Proof.
  intros s [Hs|Hs] HT Ht HP.
  - rewrite (tick_high s Hs HT Ht).
    destruct (signalTimer s mod period s >? period s / 2);
      eexists; (split; [reflexivity|]).
    + split; [right; reflexivity|]. split; [unfold same_config; cbn; auto 10|].
      split; [reflexivity|]. intros _; split; cbn; [discriminate|reflexivity].
    + split; [left; exact Hs|]. split; [unfold same_config; cbn; auto 10|].
      split; [reflexivity|]. intros Hpm; exact Hpm.
  - rewrite (tick_low s Hs HT Ht).
    destruct (Z.gtb_spec (signalTimer s) (pulseWidth s)); [lia|].
    destruct (signalTimer s mod period s <? period s / 2);
      eexists; (split; [reflexivity|]).
    + split; [left; reflexivity|]. split; [unfold same_config; cbn; auto 10|].
      split; [reflexivity|]. intros _; split; cbn; [reflexivity|discriminate].
    + split; [right; exact Hs|]. split; [unfold same_config; cbn; auto 10|].
      split; [reflexivity|]. intros Hpm; exact Hpm.
Qed.

Lemma burst_advances : forall (d : nat) s,
  in_signal s -> 0 < period s -> 0 <= signalTimer s ->
  signalTimer s + Z.of_nat d <= pulseWidth s + 1 -> pulseWidth s < 65535 ->
  exists s', burst_run d s s' /\ in_signal s' /\ same_config s s' /\
             signalTimer s' = signalTimer s + Z.of_nat d /\
             (pin_matches s -> pin_matches s').
Proof.
  induction d as [|d IH]; intros s Hin HT Ht Hd HP.
  - exists s. split; [constructor|]. split; [assumption|].
    split; [apply same_config_refl|]. split; [lia|]. auto.
  - destruct (tick_in_signal s Hin HT ltac:(lia) ltac:(lia))
      as (s1 & E1 & Hin1 & Hcfg1 & Ht1 & Hpm1).
    pose proof Hcfg1 as (A & B & _).
    destruct (IH s1 Hin1 ltac:(lia) ltac:(lia) ltac:(lia) ltac:(lia))
      as (s' & Hrun & Hin' & Hcfg' & Ht' & Hpm').
    exists s'. split; [econstructor; eauto|]. split; [assumption|].
    split; [eapply same_config_trans; eauto|]. split; [lia|]. auto.
Qed.


(** A burst that has not yet passed the pulse width ends as well. *)
Lemma burst_completes : forall s,
  in_signal s -> pin_matches s -> 3 <= period s -> 0 <= signalTimer s ->
  signalTimer s + period s / 2 + 2 <= 65535 ->
  pulseWidth s + period s / 2 + 3 <= 65535 ->
  exists n s', burst_run n s s' /\ currentState s' = wait_st /\
               same_config s s' /\ pin_level s' = Some TRANSMITTER_LOW_VALUE /\
               (1 <= n)%nat.
Proof.
  intros s Hin Hpm HT Ht Hmax HP.
  pose proof (half_period_bounds _ HT) as [Hh1 Hh2].
  destruct (Z_lt_le_dec (pulseWidth s) (signalTimer s)) as [Hc|Hc].
  - destruct (burst_exits s Hin Hpm HT Hc Ht Hmax)
      as (n & s' & Hrun & Hw & Hcfg & Hpin & Hn & _).
    exists n, s'. auto.
  - set (d := Z.to_nat (pulseWidth s + 1 - signalTimer s)).
    assert (Hd : Z.of_nat d = pulseWidth s + 1 - signalTimer s)
      by (subst d; apply Z2Nat.id; lia).
    clearbody d.
    destruct (burst_advances d s Hin ltac:(lia) Ht ltac:(lia) ltac:(lia))
      as (s1 & Hrun1 & Hin1 & Hcfg1 & Ht1 & Hpm1).
    pose proof Hcfg1 as (A & B & _).
    assert (HT1 : 3 <= period s1) by (rewrite A; lia).
    assert (HP1 : pulseWidth s1 < signalTimer s1) by (rewrite B, Ht1; lia).
    assert (Hmax1 : signalTimer s1 + period s1 / 2 + 2 <= 65535)
      by (rewrite A, Ht1; lia).
    destruct (burst_exits s1 Hin1 (Hpm1 Hpm) HT1 HP1 ltac:(lia) Hmax1)
      as (n & s' & Hrun & Hw & Hcfg & Hpin & Hn & _).
    exists (d + n)%nat, s'.
    split; [eapply burst_run_app; eauto|]. split; [exact Hw|].
    split; [eapply same_config_trans; eauto|]. split; [exact Hpin|]. lia.
Qed.

(** In SignalHigh the machine stays high until the half period is over,
    whatever the pulse width. *)
Lemma high_stays : forall (d : nat) s,
  currentState s = sig_high_st -> 0 < period s -> 0 <= signalTimer s ->
  signalTimer s mod period s + Z.of_nat d <= period s / 2 + 1 ->
  signalTimer s + Z.of_nat d <= 65535 ->
  burst_run d s (set_signalTimer (signalTimer s + Z.of_nat d) s).
Proof.
  induction d as [|d IH]; intros s Hs HT Ht Hd Hmax.
  - replace (signalTimer s + Z.of_nat 0) with (signalTimer s) by lia.
    destruct s; constructor.
  - pose proof (Z.mod_pos_bound (signalTimer s) (period s) HT) as Hm.
    pose proof (tick_high s Hs HT ltac:(lia)) as E1.
    assert (Ec : (signalTimer s mod period s >? period s / 2) = false).
    { destruct (Z.gtb_spec (signalTimer s mod period s) (period s / 2)); [lia|reflexivity]. }
    rewrite Ec in E1.
    econstructor; [left; exact Hs|exact E1|].
    assert (Hdiv : 0 <= period s / 2) by (apply Z.div_pos; lia).
    destruct (mod_succ_cases (period s) (signalTimer s) HT Ht) as [[M1 M2]|[M1 M2]].
    + specialize (IH (set_signalTimer (signalTimer s + 1) s)). cbn in IH.
      replace (signalTimer s + Z.of_nat (S d)) with (signalTimer s + 1 + Z.of_nat d) by lia.
      destruct s; cbn in *. apply IH; auto; lia.
    + specialize (IH (set_signalTimer (signalTimer s + 1) s)). cbn in IH.
      replace (signalTimer s + Z.of_nat (S d)) with (signalTimer s + 1 + Z.of_nat d) by lia.
      destruct s; cbn in *. apply IH; auto; lia.
Qed.

(** With a period of one or two ticks the high half never ends. *)
Lemma short_period_stays_high : forall n s,
  currentState s = sig_high_st -> 0 < period s <= 2 ->
  0 <= signalTimer s < 65536 ->
  exists s', nticks n s = Some s' /\ currentState s' = sig_high_st.
Proof.
  induction n as [|n IH]; intros s Hs HT Ht.
  - exists s; auto.
  - destruct s as [st t m r w d f p md po ws]; cbn in *; subst.
    unfold transmitter_tick, transition; cbn.
    destruct (p =? 0) eqn:E0; [apply Z.eqb_eq in E0; lia|].
    pose proof (Z.mod_pos_bound t p ltac:(lia)) as Hm.
    assert (Hdiv : p = 1 /\ p / 2 = 0 \/ p = 2 /\ p / 2 = 1).
    { assert (p = 1 \/ p = 2) as [->| ->] by lia; [left|right]; split; reflexivity. }
    assert (Ec : (t mod p >? p / 2) = false).
    { destruct (Z.gtb_spec (t mod p) (p / 2)); [lia|reflexivity]. }
    rewrite Ec; cbn.
    apply IH; cbn; auto.
    unfold to_uint16. apply Z.mod_pos_bound. lia.
Qed.


(** C2 (amended): for a pulse width [P] and a period [T] with
    [3 <= T <= P] and [P + T < 2^16], one [transmitter_run] in
    non-continuous mode from Wait gives one burst whose pin level is high at
    every timer value [k <= P] with [k mod T <= T / 2] and low at the others,
    after which the machine is back in Wait, not running, and stays there. *)
Theorem single_run_square_wave : forall s P T,
  currentState s = wait_st -> continuousModeOn s = false ->
  pulseWidth s = P -> table_period table s = Some T ->
  3 <= T <= P -> P + T < 65536 ->
  square_wave table (transmitter_run s) P T /\
  one_burst_then_idle table (transmitter_run s) P.
Proof.
  intros s P T Hw Hm HP HTab HT Hsum.
  pose proof (half_period_bounds T ltac:(lia)) as [Hh1 Hh2].
  assert (E0 : tick (transmitter_run s) =
               Some (mkTransmitter sig_high_st 1 false false P (debugOn s)
                       (currentFrequency s) T (mioDebug s) (pinIsOutput s)
                       (TRANSMITTER_HIGH_VALUE :: pinWrites s))).
  { rewrite (tick_wait_start (transmitter_run s) T); cbn; auto.
    rewrite Hm, HP. reflexivity. }
  match type of E0 with _ = Some ?x => set (s1 := x) in * end.
  assert (Hpat : forall k : nat, Z.of_nat k <= P ->
            exists s', burst_run k s1 s' /\ same_config s1 s' /\
                       signalTimer s' = Z.of_nat k + 1 /\
                       currentState s' = state_at T (Z.of_nat k) /\
                       pin_level s' = Some (level_at T (Z.of_nat k))).
  { intros k Hk. apply (burst_pattern k s1); subst s1; cbn; auto; lia. }
  split.
  - (* the square wave *)
    intros k Hk.
    destruct (Hpat (Z.to_nat k) ltac:(lia)) as (s' & Hrun & _ & Ht & Hst & Hpin).
    rewrite Z2Nat.id in * by lia.
    exists s'. cbn. rewrite E0. cbn.
    split; [apply (burst_run_ticks _ _ _ Hrun)|].
    split; [|auto].
    unfold in_signal, state_at in *.
    destruct (k mod T <=? T / 2); auto.
  - (* the end of the burst *)
    destruct (Hpat (Z.to_nat P) ltac:(lia)) as (sP & Hrun & Hcfg & Ht & Hst & Hpin).
    rewrite Z2Nat.id in * by lia.
    destruct Hcfg as (Hper & Hpw & Hr & Hc & Hf). cbn in Hper, Hpw, Hr.
    assert (Hexit : exists n s', burst_run n sP s' /\ currentState s' = wait_st /\
                      same_config sP s' /\
                      pin_level s' = Some TRANSMITTER_LOW_VALUE /\ (1 <= n)%nat).
    { unfold state_at, level_at in *.
      pose proof (Z.mod_pos_bound P T ltac:(lia)) as HmP.
      destruct (P mod T <=? T / 2) eqn:Eph.
      - apply Z.leb_le in Eph.
        destruct (mod_succ_cases T P ltac:(lia) ltac:(lia)) as [[M1 M2]|[M1 M2]]; [|lia].
        set (d := Z.to_nat (T / 2 - P mod T)).
        assert (Hd : Z.of_nat d = T / 2 - P mod T) by (subst d; apply Z2Nat.id; lia).
        clearbody d.
        destruct (high_exits d sP Hst) as (s' & Hrun' & Hw' & Hcfg' & Hpin' & _);
          rewrite ?Hper, ?Hpw, ?Ht; try lia.
        exists (d + 2)%nat, s'.
        split; [exact Hrun'|]. split; [exact Hw'|]. split; [exact Hcfg'|].
        split; [exact Hpin'|lia].
      - exists 1%nat, (set_currentState wait_st sP). split.
        + econstructor; [right; exact Hst| |constructor].
          apply tick_low_wait; [exact Hst|lia].
        + split; [reflexivity|]. split; [unfold same_config; cbn; auto 10|].
          split; [exact Hpin|lia]. }
    destruct Hexit as (n & s' & Hrun' & Hw' & Hcfg' & Hpin' & Hn).
    pose proof (burst_run_app _ _ _ _ _ Hrun Hrun') as Hall.
    destruct (burst_run_ticks _ _ _ Hall) as [Eall Hstay].
    destruct Hcfg' as (_ & _ & Hr' & _).
    exists (S (Z.to_nat P + n)), s'.
    split; [cbn; rewrite E0; exact Eall|].
    split; [lia|].
    split.
    { intros [|m] sm Hm' Hsm; [lia|]. cbn in Hsm. rewrite E0 in Hsm. cbn in Hsm.
      apply (Hstay m sm); [lia|exact Hsm]. }
    split; [exact Hw'|].
    assert (Hrun0 : running s' = false) by (unfold transmitter_running; congruence).
    split; [exact Hrun0|]. split; [exact Hpin'|].
    intros j. apply ticks_wait_idle; assumption.
Qed.


(** ** Worked cases *)

(** C7 (amended): with a period of 10 and a pulse width of 25, a machine in
    SignalHigh with the timer at 0 goes low at timer 6, high at 10, low at
    16, high at 20, low at 26 and returns to Wait at timer 27: the return to
    Wait is taken from SignalLow only. *)
Theorem period_10_width_25_transitions : forall s,
  currentState s = sig_high_st -> signalTimer s = 0 ->
  period s = 10 -> pulseWidth s = 25 ->
  transitions table 28 s =
  [ (6, sig_high_st, sig_low_st); (10, sig_low_st, sig_high_st);
    (16, sig_high_st, sig_low_st); (20, sig_low_st, sig_high_st);
    (26, sig_high_st, sig_low_st); (27, sig_low_st, wait_st) ] /\
  trace table 28 s =
  [ (sig_high_st, 1); (sig_high_st, 2); (sig_high_st, 3);
    (sig_high_st, 4); (sig_high_st, 5); (sig_high_st, 6);
    (sig_low_st, 7); (sig_low_st, 8); (sig_low_st, 9); (sig_low_st, 10);
    (sig_high_st, 11); (sig_high_st, 12); (sig_high_st, 13); (sig_high_st, 14);
    (sig_high_st, 15); (sig_high_st, 16);
    (sig_low_st, 17); (sig_low_st, 18); (sig_low_st, 19); (sig_low_st, 20);
    (sig_high_st, 21); (sig_high_st, 22); (sig_high_st, 23); (sig_high_st, 24);
    (sig_high_st, 25); (sig_high_st, 26);
    (sig_low_st, 27); (wait_st, 27) ].
Proof.
  intros s Hs Ht HT HP.
  destruct s as [st t m r w d f p md po ws]; cbn in Hs, Ht, HT, HP; subst.
  split; vm_compute; reflexivity.
Qed.


Lemma table_period_range : forall s p,
  table_period table s = Some p -> 0 <= p < 65536.
Proof.
  unfold table_period; intros s p H.
  destruct (nth_error table (Z.to_nat (currentFrequency s))); cbn in H; [|discriminate].
  inv H. unfold to_uint16. apply Z.mod_pos_bound. lia.
Qed.

(** C8 (amended): with a pulse width of 0 and a period [T >= 3], a
    [transmitter_run] in non-continuous mode from Wait puts the machine in
    SignalHigh with the timer at 1; the machine does not return to Wait on the
    next tick but stays high for T/2 + 1 ticks, goes low on the tick that
    finds the timer at T/2 + 1 and returns to Wait one tick later.  The test
    for the end of the burst is strict: in SignalLow a timer equal to the
    pulse width does not end the burst, a timer one above it does. *)
Theorem zero_width_pulse : forall s T,
  currentState s = wait_st -> continuousModeOn s = false ->
  pulseWidth s = 0 -> table_period table s = Some T -> 3 <= T ->
  (forall k, 1 <= k <= T / 2 + 1 -> exists s',
     nticks (Z.to_nat k) (transmitter_run s) = Some s' /\
     currentState s' = sig_high_st /\ signalTimer s' = k /\
     pin_level s' = Some TRANSMITTER_HIGH_VALUE) /\
  (exists s',
     nticks (Z.to_nat (T / 2 + 2)) (transmitter_run s) = Some s' /\
     currentState s' = sig_low_st /\ signalTimer s' = T / 2 + 2 /\
     pin_level s' = Some TRANSMITTER_LOW_VALUE) /\
  (exists s',
     nticks (Z.to_nat (T / 2 + 3)) (transmitter_run s) = Some s' /\
     currentState s' = wait_st /\ transmitter_running s' = false /\
     forall j, nticks j s' = Some s') /\
  (forall s2, currentState s2 = sig_low_st -> 0 < period s2 ->
     0 <= signalTimer s2 < 65535 ->
     (signalTimer s2 = pulseWidth s2 ->
      exists s3, tick s2 = Some s3 /\ in_signal s3) /\
     (signalTimer s2 = pulseWidth s2 + 1 ->
      exists s3, tick s2 = Some s3 /\ currentState s3 = wait_st)).
Proof.
  intros s T Hw Hm HP HTab HT.
  pose proof (half_period_bounds T HT) as [Hh1 Hh2].
  pose proof (table_period_range _ _ HTab) as HTr.
  assert (E0 : tick (transmitter_run s) =
               Some (mkTransmitter sig_high_st 1 false false 0 (debugOn s)
                       (currentFrequency s) T (mioDebug s) (pinIsOutput s)
                       (TRANSMITTER_HIGH_VALUE :: pinWrites s))).
  { rewrite (tick_wait_start (transmitter_run s) T); cbn; auto.
    rewrite Hm, HP. reflexivity. }
  match type of E0 with _ = Some ?x => set (s1 := x) in * end.
  assert (Hone : 1 mod T = 1) by (apply Z.mod_small; lia).
  assert (Hhigh : forall d : nat, Z.of_nat d <= T / 2 ->
            nticks (S d) (transmitter_run s) =
            Some (set_signalTimer (1 + Z.of_nat d) s1)).
  { intros d Hd. cbn. rewrite E0. cbn.
    apply (burst_run_ticks d s1 _).
    apply (high_stays d s1);
      [ reflexivity
      | change (0 < T); lia
      | change (0 <= 1); lia
      | change (1 mod T + Z.of_nat d <= T / 2 + 1); lia
      | change (1 + Z.of_nat d <= 65535); lia ]. }
  set (sH := set_signalTimer (T / 2 + 1) s1).
  assert (EH : nticks (Z.to_nat (T / 2 + 1)) (transmitter_run s) = Some sH).
  { replace (Z.to_nat (T / 2 + 1)) with (S (Z.to_nat (T / 2))) by lia.
    rewrite Hhigh by lia. subst sH. f_equal. f_equal. lia. }
  set (sL := mkTransmitter sig_low_st (T / 2 + 2) false false 0 (debugOn s)
               (currentFrequency s) T (mioDebug s) (pinIsOutput s)
               (TRANSMITTER_LOW_VALUE :: TRANSMITTER_HIGH_VALUE :: pinWrites s)).
  assert (EL : tick sH = Some sL).
  { rewrite (tick_high sH); subst sH s1; cbn; auto; try lia.
    rewrite (Z.mod_small (T / 2 + 1) T) by lia.
    assert (Ec : (T / 2 + 1 >? T / 2) = true) by (apply Z.gtb_gt; lia).
    rewrite Ec. subst sL. f_equal. f_equal. lia. }
  assert (EW : tick sL = Some (set_currentState wait_st sL)).
  { apply tick_low_wait; subst sL; cbn; [reflexivity|lia]. }
  split; [|split; [|split]].
  - intros k Hk.
    exists (set_signalTimer (1 + Z.of_nat (Z.to_nat (k - 1))) s1).
    split.
    + replace (Z.to_nat k) with (S (Z.to_nat (k - 1))) by lia.
      apply Hhigh. lia.
    + split; [reflexivity|]. split; [|reflexivity].
      change (1 + Z.of_nat (Z.to_nat (k - 1)) = k). lia.
  - exists sL. split.
    + replace (Z.to_nat (T / 2 + 2)) with (Z.to_nat (T / 2 + 1) + 1)%nat by lia.
      rewrite ticks_add, EH. cbn. rewrite EL. reflexivity.
    + subst sL; cbn; auto.
  - exists (set_currentState wait_st sL). split.
    + replace (Z.to_nat (T / 2 + 3)) with (Z.to_nat (T / 2 + 1) + 2)%nat by lia.
      rewrite ticks_add, EH. cbn. rewrite EL. cbn. rewrite EW. reflexivity.
    + subst sL; cbn. repeat split; auto.
      intros j. apply ticks_wait_idle; reflexivity.
  - intros s2 Hs2 Hp2 Ht2. split; intros Heq.
    + rewrite (tick_low s2 Hs2 Hp2 Ht2).
      destruct (Z.gtb_spec (signalTimer s2) (pulseWidth s2)); [lia|].
      destruct (signalTimer s2 mod period s2 <? period s2 / 2);
        eexists; (split; [reflexivity|]).
      * left; reflexivity.
      * right; exact Hs2.
    + exists (set_currentState wait_st s2). split; [|reflexivity].
      apply tick_low_wait; [exact Hs2|lia].
Qed.

(** C6 (amended): after [transmitter_setContinuousMode false] in SignalLow the
    burst in flight runs to completion and the machine reaches Wait with the
    run request as it was.  Without a latched request the machine stays in
    Wait.  With a latched request, as continuous mode leaves it, the next
    tick starts one further burst and clears the request; that burst
    completes and the machine then stays in Wait. *)
Theorem continuous_off_in_signal_low : forall s T',
  currentState s = sig_low_st -> pin_matches s ->
  3 <= period s -> 0 <= signalTimer s -> 0 <= pulseWidth s ->
  signalTimer s + period s / 2 + 2 <= 65535 ->
  pulseWidth s + period s / 2 + 3 <= 65535 ->
  table_period table s = Some T' -> 3 <= T' ->
  pulseWidth s + T' / 2 + 3 <= 65535 ->
  exists n s1,
    burst_run n (transmitter_setContinuousMode false s) s1 /\
    currentState s1 = wait_st /\ running s1 = running s /\
    (running s = false -> forall j, nticks j s1 = Some s1) /\
    (running s = true ->
     exists s2 m s3,
       tick s1 = Some s2 /\ currentState s2 = sig_high_st /\
       running s2 = false /\
       burst_run m s2 s3 /\ currentState s3 = wait_st /\
       forall j, nticks j s3 = Some s3).
Proof.
  intros s T' Hs Hpm HT Ht HP0 Hmax HP HTab HT' HP'.
  set (s0 := transmitter_setContinuousMode false s).
  assert (Hin0 : in_signal s0) by (right; exact Hs).
  destruct (burst_completes s0 Hin0 Hpm HT Ht Hmax HP)
    as (n & s1 & Hrun & Hw & Hcfg & Hpin & Hn).
  destruct Hcfg as (Hper & Hpw & Hr & Hc & Hf); cbn in *.
  exists n, s1. split; [exact Hrun|]. split; [exact Hw|]. split; [exact Hr|].
  split.
  - intros Hr0 j. apply ticks_wait_idle; congruence.
  - intros Hr1.
    assert (HTab1 : table_period table s1 = Some T').
    { unfold table_period in *. rewrite Hf. exact HTab. }
    pose proof (tick_wait_start s1 T' Hw ltac:(congruence) HTab1) as E2.
    rewrite Hc, Hpw in E2.
    match type of E2 with _ = Some ?x => set (s2 := x) in * end.
    assert (Hin2 : in_signal s2) by (left; reflexivity).
    pose proof (half_period_bounds T' HT') as [Hh1 Hh2].
    pose proof (table_period_range _ _ HTab) as HTr.
    assert (Hpm2 : pin_matches s2) by (split; cbn; [reflexivity|discriminate]).
    assert (A1 : 3 <= period s2) by (change (3 <= T'); lia).
    assert (A2 : 0 <= signalTimer s2) by (change (0 <= 1); lia).
    assert (A3 : signalTimer s2 + period s2 / 2 + 2 <= 65535)
      by (change (1 + T' / 2 + 2 <= 65535); lia).
    assert (A4 : pulseWidth s2 + period s2 / 2 + 3 <= 65535)
      by (change (pulseWidth s + T' / 2 + 3 <= 65535); lia).
    destruct (burst_completes s2 Hin2 Hpm2 A1 A2 A3 A4)
      as (m & s3 & Hrun3 & Hw3 & Hcfg3 & _ & _).
    destruct Hcfg3 as (_ & _ & Hr3 & _); cbn in Hr3.
    eexists _, m, s3.
    split; [exact E2|]. split; [reflexivity|]. split; [reflexivity|].
    split; [exact Hrun3|]. split; [exact Hw3|].
    intros j. apply ticks_wait_idle; assumption.
Qed.


(** ** The wide burst keeps alternating *)

Lemma tick_wide_high : forall s,
  currentState s = sig_high_st -> 0 < period s ->
  tick s =
  Some (if signalTimer s mod period s >? period s / 2
        then mkTransmitter sig_low_st (to_uint16 (signalTimer s + 1))
               (continuousModeOn s) (running s) (pulseWidth s) (debugOn s)
               (currentFrequency s) (period s) (mioDebug s) (pinIsOutput s)
               (TRANSMITTER_LOW_VALUE :: pinWrites s)
        else set_signalTimer (to_uint16 (signalTimer s + 1)) s).
Proof.
  intros s Hs Hp. destruct s as [st t m r w d f p md po ws]; cbn in *; subst.
  unfold transmitter_tick, transition; cbn.
  destruct (p =? 0) eqn:E0; [apply Z.eqb_eq in E0; lia|].
  destruct (t mod p >? p / 2); reflexivity.
Qed.

Lemma tick_wide_low : forall s,
  currentState s = sig_low_st -> 0 < period s ->
  signalTimer s <= pulseWidth s ->
  tick s =
  Some (if signalTimer s mod period s <? period s / 2
        then mkTransmitter sig_high_st (to_uint16 (signalTimer s + 1))
               (continuousModeOn s) (running s) (pulseWidth s) (debugOn s)
               (currentFrequency s) (period s) (mioDebug s) (pinIsOutput s)
               (TRANSMITTER_HIGH_VALUE :: pinWrites s)
        else set_signalTimer (to_uint16 (signalTimer s + 1)) s).
Proof.
  intros s Hs Hp Ht. destruct s as [st t m r w d f p md po ws]; cbn in *; subst.
  unfold transmitter_tick, transition; cbn.
  destruct (Z.gtb_spec t w); [lia|].
  destruct (p =? 0) eqn:E0; [apply Z.eqb_eq in E0; lia|].
  destruct (t mod p <? p / 2); reflexivity.
Qed.

(** From SignalHigh a wide burst goes low: at the end of the running half
    period when the timer does not wrap before, else at the end of the first
    half period after the wrap. *)
Lemma wide_high_reaches_low_no_wrap : forall (d : nat) s,
  currentState s = sig_high_st -> 3 <= period s -> 0 <= signalTimer s ->
  period s / 2 + 1 <= signalTimer s mod period s + Z.of_nat d ->
  (d <> 0%nat -> signalTimer s mod period s + Z.of_nat d = period s / 2 + 1) ->
  signalTimer s + Z.of_nat d <= 65535 ->
  exists s', nticks (S d) s = Some s' /\ currentState s' = sig_low_st.
Proof.
  induction d as [|d IH]; intros s Hs HT Ht Hd Hd' Hmax.
  - rewrite Nat2Z.inj_0 in *. cbn [ticks].
    rewrite (tick_wide_high s Hs ltac:(lia)).
    assert (Ec : (signalTimer s mod period s >? period s / 2) = true)
      by (apply Z.gtb_gt; lia).
    rewrite Ec. cbn. eexists; split; reflexivity.
  - pose proof (half_period_bounds _ HT) as [Hh1 Hh2].
    pose proof (Z.mod_pos_bound (signalTimer s) (period s) ltac:(lia)) as Hm.
    specialize (Hd' ltac:(lia)).
    cbn [ticks]. rewrite (tick_high s Hs ltac:(lia) ltac:(lia)).
    assert (Ec : (signalTimer s mod period s >? period s / 2) = false).
    { destruct (Z.gtb_spec (signalTimer s mod period s) (period s / 2)); [lia|reflexivity]. }
    rewrite Ec. cbn [bind].
    destruct (mod_succ_cases (period s) (signalTimer s) ltac:(lia) Ht)
      as [[M1 M2]|[M1 M2]]; [|lia].
    apply IH; cbn; auto; lia.
Qed.

Lemma add_mod_small : forall T t e,
  0 < T -> 0 <= e -> t mod T + e < T -> (t + e) mod T = t mod T + e.
Proof.
  intros T t e HT He Hlt.
  pose proof (Z.mod_pos_bound t T HT) as Hb.
  rewrite <- Zplus_mod_idemp_l. apply Z.mod_small. lia.
Qed.

Lemma wide_high_reaches_low : forall s,
  currentState s = sig_high_st -> 3 <= period s < 65536 ->
  0 <= signalTimer s < 65536 ->
  exists m s', nticks m s = Some s' /\ currentState s' = sig_low_st.
Proof.
  intros s Hs HT Ht.
  pose proof (half_period_bounds (period s) ltac:(lia)) as [Hh1 Hh2].
  pose proof (Z.mod_pos_bound (signalTimer s) (period s) ltac:(lia)) as Hm.
  destruct (Z_le_gt_dec (period s / 2 + 1) (signalTimer s mod period s)) as [Hc|Hc].
  - destruct (wide_high_reaches_low_no_wrap 0 s Hs) as (s' & E & Hs'); try lia.
    eauto.
  - set (d := Z.to_nat (period s / 2 + 1 - signalTimer s mod period s)).
    assert (Hd : Z.of_nat d = period s / 2 + 1 - signalTimer s mod period s)
      by (subst d; apply Z2Nat.id; lia).
    clearbody d.
    destruct (Z_le_gt_dec (signalTimer s + Z.of_nat d) 65535) as [Hw|Hw].
    + destruct (wide_high_reaches_low_no_wrap d s Hs) as (s' & E & Hs'); try lia.
      eauto.
    + (* the timer wraps while the machine is high *)
      set (e := Z.to_nat (65535 - signalTimer s)).
      assert (He : Z.of_nat e = 65535 - signalTimer s) by (subst e; apply Z2Nat.id; lia).
      clearbody e.
      pose proof (high_stays e s Hs ltac:(lia) ltac:(lia) ltac:(lia) ltac:(lia)) as Hrun.
      apply burst_run_ticks in Hrun. destruct Hrun as [E1 _].
      set (s1 := set_signalTimer (signalTimer s + Z.of_nat e) s) in *.
      assert (Hs1 : currentState s1 = sig_high_st) by exact Hs.
      assert (Hm1 : signalTimer s1 mod period s1 = signalTimer s mod period s + Z.of_nat e).
      { subst s1; cbn. apply add_mod_small; lia. }
      pose proof (tick_wide_high s1 Hs1 ltac:(subst s1; cbn; lia)) as E2.
      assert (Ec : (signalTimer s1 mod period s1 >? period s1 / 2) = false).
      { rewrite Hm1. subst s1; cbn.
        destruct (Z.gtb_spec (signalTimer s mod period s + Z.of_nat e) (period s / 2));
          [lia|reflexivity]. }
      rewrite Ec in E2.
      assert (Hz : to_uint16 (signalTimer s1 + 1) = 0).
      { subst s1; cbn. replace (signalTimer s + Z.of_nat e + 1) with 65536 by lia.
        reflexivity. }
      rewrite Hz in E2.
      set (s2 := set_signalTimer 0 s1) in *.
      set (d0 := Z.to_nat (period s / 2 + 1)).
      assert (Hd0 : Z.of_nat d0 = period s / 2 + 1) by (subst d0; apply Z2Nat.id; lia).
      clearbody d0.
      destruct (wide_high_reaches_low_no_wrap d0 s2) as (s' & E3 & Hs').
      * exact Hs.
      * change (3 <= period s); lia.
      * change (0 <= 0); lia.
      * change (period s / 2 + 1 <= 0 mod period s + Z.of_nat d0).
        rewrite Z.mod_0_l by lia. lia.
      * intros _. change (0 mod period s + Z.of_nat d0 = period s / 2 + 1).
        rewrite Z.mod_0_l by lia. lia.
      * change (0 + Z.of_nat d0 <= 65535). lia.
      * exists (e + (1 + S d0))%nat, s'. split; [|exact Hs'].
        rewrite ticks_add, E1. cbn [bind].
        rewrite ticks_add. cbn [ticks]. rewrite E2. cbn [bind]. exact E3.
Qed.

(** From SignalLow a wide burst goes high when the timer reaches the next
    multiple of the period or wraps to 0. *)
Lemma wide_low_reaches_high : forall (d : nat) s,
  currentState s = sig_low_st -> 3 <= period s ->
  0 <= signalTimer s < 65536 -> 65536 <= pulseWidth s ->
  period s - signalTimer s mod period s <= Z.of_nat d ->
  exists m s', nticks m s = Some s' /\ currentState s' = sig_high_st.
Proof.
  induction d as [|d IH]; intros s Hs HT Ht HP Hd;
    pose proof (Z.mod_pos_bound (signalTimer s) (period s) ltac:(lia)) as Hm;
    [lia|].
  pose proof (half_period_bounds _ HT) as [Hh1 Hh2].
  pose proof (tick_wide_low s Hs ltac:(lia) ltac:(lia)) as E1.
  destruct (signalTimer s mod period s <? period s / 2) eqn:Ec.
  - exists 1%nat. eexists. cbn [ticks]. rewrite E1. cbn [bind]. split; reflexivity.
  - apply Z.ltb_ge in Ec.
    set (s1 := set_signalTimer (to_uint16 (signalTimer s + 1)) s) in *.
    assert (Hs1 : currentState s1 = sig_low_st) by exact Hs.
    assert (Hzero : forall s1', tick s = Some s1' -> currentState s1' = sig_low_st ->
              period s1' = period s -> pulseWidth s1' = pulseWidth s ->
              signalTimer s1' mod period s = 0 -> 0 <= signalTimer s1' < 65536 ->
              exists m s', nticks m s = Some s' /\ currentState s' = sig_high_st).
    { intros s1' E Hst Hper Hpw Hres Hrange.
      pose proof (tick_wide_low s1' Hst ltac:(lia) ltac:(lia)) as E2.
      rewrite Hper, Hres in E2.
      assert (Ez : (0 <? period s / 2) = true) by (apply Z.ltb_lt; lia).
      rewrite Ez in E2.
      exists 2%nat. eexists. cbn [ticks]. rewrite E. cbn [bind]. rewrite E2. cbn [bind].
      split; reflexivity. }
    destruct (Z.eq_dec (signalTimer s) 65535) as [Hwrap|Hwrap].
    + assert (T1 : signalTimer s1 = 0).
      { change (to_uint16 (signalTimer s + 1) = 0). rewrite Hwrap. reflexivity. }
      apply (Hzero s1 E1 Hs1); try reflexivity; rewrite T1.
      * apply Z.mod_0_l; lia.
      * lia.
    + assert (T1 : signalTimer s1 = signalTimer s + 1).
      { change (to_uint16 (signalTimer s + 1) = signalTimer s + 1).
        apply timer_succ; lia. }
      assert (P1 : period s1 = period s) by reflexivity.
      assert (W1 : pulseWidth s1 = pulseWidth s) by reflexivity.
      destruct (mod_succ_cases (period s) (signalTimer s) ltac:(lia) ltac:(lia))
        as [[M1 M2]|[M1 M2]].
      * destruct (IH s1 Hs1) as (m & s' & E' & Hs'); rewrite ?T1, ?P1, ?W1; try lia.
        exists (S m), s'. cbn [ticks]. rewrite E1. cbn [bind]. auto.
      * apply (Hzero s1 E1 Hs1); try reflexivity; rewrite T1; [exact M1|lia].
Qed.


Lemma ticks_wide_burst : forall n s,
  wide_burst s ->
  exists s', nticks n s = Some s' /\ wide_burst s' /\ period s' = period s.
Proof.
  induction n as [|n IH]; intros s Hw.
  - exists s; auto.
  - pose proof Hw as ([Hs|Hs] & HP & Ht & HT).
    + pose proof (tick_wide_high s Hs HT) as E.
      match type of E with _ = Some ?x => set (s1 := x) in * end.
      assert (Hw1 : wide_burst s1 /\ period s1 = period s).
      { assert (Hu : 0 <= to_uint16 (signalTimer s + 1) < 65536)
          by (unfold to_uint16; apply Z.mod_pos_bound; lia).
        subst s1. unfold wide_burst, in_signal.
        destruct (signalTimer s mod period s >? period s / 2); cbn;
          repeat split; auto; try lia. }
      destruct Hw1 as [Hw1 Hp1].
      destruct (IH s1 Hw1) as (s' & E' & Hw' & Hp').
      exists s'. cbn [ticks]. rewrite E. cbn [bind].
      split; [exact E'|]. split; [exact Hw'|congruence].
    + pose proof (tick_wide_low s Hs HT ltac:(lia)) as E.
      match type of E with _ = Some ?x => set (s1 := x) in * end.
      assert (Hw1 : wide_burst s1 /\ period s1 = period s).
      { assert (Hu : 0 <= to_uint16 (signalTimer s + 1) < 65536)
          by (unfold to_uint16; apply Z.mod_pos_bound; lia).
        subst s1. unfold wide_burst, in_signal.
        destruct (signalTimer s mod period s <? period s / 2); cbn;
          repeat split; auto; try lia. }
      destruct Hw1 as [Hw1 Hp1].
      destruct (IH s1 Hw1) as (s' & E' & Hw' & Hp').
      exists s'. cbn [ticks]. rewrite E. cbn [bind].
      split; [exact E'|]. split; [exact Hw'|congruence].
Qed.

Lemma wide_burst_reaches_both : forall s,
  wide_burst s -> 3 <= period s < 65536 ->
  (exists m s', nticks m s = Some s' /\ currentState s' = sig_high_st) /\
  (exists m s', nticks m s = Some s' /\ currentState s' = sig_low_st).
Proof.
  intros s ([Hs|Hs] & HP & Ht & HT) HT3.
  - split; [exists 0%nat, s; auto|].
    apply wide_high_reaches_low; auto.
  - split; [|exists 0%nat, s; auto].
    pose proof (Z.mod_pos_bound (signalTimer s) (period s) ltac:(lia)) as Hm.
    apply (wide_low_reaches_high (Z.to_nat (period s)) s); auto; lia.
Qed.

(** C10 (amended): once [transmitter_setPulseWidth] has stored a width of 2^16 or more,
    a burst that has started never returns to Wait: after any number of
    ticks, and after any calls that do not lower the width again, the machine
    is still in SignalHigh or SignalLow; and with a period of at least 3 it
    keeps visiting both states, however many ticks have passed. *)
Theorem wide_pulse_never_returns_to_wait : forall s w,
  65536 <= w < 4294967296 ->
  in_signal s -> 0 <= signalTimer s < 65536 -> 0 < period s ->
  (forall n, exists s',
     nticks n (transmitter_setPulseWidth w s) = Some s' /\
     in_signal s' /\ currentState s' <> wait_st) /\
  (forall cs, Forall keeps_wide cs -> exists s',
     exec cs (transmitter_setPulseWidth w s) = Some s' /\
     in_signal s' /\ currentState s' <> wait_st) /\
  (3 <= period s < 65536 -> forall n, exists m1 m2 s1 s2,
     (n <= m1)%nat /\ (n <= m2)%nat /\
     nticks m1 (transmitter_setPulseWidth w s) = Some s1 /\
     currentState s1 = sig_high_st /\
     nticks m2 (transmitter_setPulseWidth w s) = Some s2 /\
     currentState s2 = sig_low_st).
Proof.
  intros s w Hw Hin Ht Hp.
  assert (H0 : wide_burst (transmitter_setPulseWidth w s)).
  { unfold wide_burst, in_signal in *. cbn. unfold to_uint32.
    rewrite Z.mod_small by lia. repeat split; auto; lia. }
  assert (Hall : forall cs, Forall keeps_wide cs -> exists s',
            exec cs (transmitter_setPulseWidth w s) = Some s' /\
            in_signal s' /\ currentState s' <> wait_st).
  { intros cs Hcs. destruct (exec_wide_burst cs _ Hcs H0) as (s' & E & Hs' & _).
    exists s'. repeat split; auto.
    destruct Hs' as [Hs'|Hs']; rewrite Hs'; discriminate. }
  split; [|split; [exact Hall|]].
  - intros n. rewrite ticks_exec. apply Hall.
    clear. induction n; cbn; constructor; cbn; auto.
  - intros HT3 n.
    destruct (ticks_wide_burst n _ H0) as (sn & En & Hwn & Hpn).
    cbn in Hpn.
    destruct (wide_burst_reaches_both sn Hwn ltac:(lia))
      as [(m1 & s1 & E1 & Hs1) (m2 & s2 & E2 & Hs2)].
    exists (n + m1)%nat, (n + m2)%nat, s1, s2.
    split; [lia|]. split; [lia|].
    rewrite !ticks_add, En. cbn [bind]. auto.
Qed.


(** * Further properties of the state machine *)

(** ** Values stay in the range of their types *)

Lemma exec_call_well_typed : forall c s s',
  well_typed s -> exec_call table c s = Some s' -> well_typed s'.
Proof.
  intros c s s' (Ht & Hp & Hw & Hf) H. unfold well_typed in *.
  assert (Hu : forall z, 0 <= to_uint16 z < 65536)
    by (intros; unfold to_uint16; apply Z.mod_pos_bound; lia).
  assert (Hu8 : forall z, 0 <= to_uint8 z < 256)
    by (intros; unfold to_uint8; apply Z.mod_pos_bound; lia).
  assert (Hu32 : forall z, 0 <= to_uint32 z < 4294967296)
    by (intros; unfold to_uint32; apply Z.mod_pos_bound; lia).
  destruct s as [st t m r w d f p md po ws]; cbn in *.
  destruct c; cbn in H; try (inv H; cbn; auto; fail).
  unfold transmitter_tick, transition, action, table_period, bind in H.
  cbn in H.
  destruct st; cbn in H.
  - inv H; cbn; auto.
  - destruct r; cbn in H; [|inv H; cbn; auto].
    destruct m; cbn in H;
      (destruct (nth_error table (Z.to_nat f)); cbn in H; [|discriminate]);
      inv H; cbn; repeat split; auto; try lia; apply Hu.
  - destruct (p =? 0); [discriminate|].
    destruct (t mod p >? p / 2); inv H; cbn; repeat split; auto; try lia; apply Hu.
  - destruct (t >? w); [inv H; cbn; auto|].
    destruct (p =? 0); [discriminate|].
    destruct (t mod p <? p / 2); inv H; cbn; repeat split; auto; try lia; apply Hu.
Qed.

Lemma init_well_typed : forall s s',
  well_typed s -> transmitter_init table s = Some s' -> well_typed s'.
Proof.
  intros s s' (Ht & Hp & Hw & Hf) H. unfold well_typed in *.
  unfold transmitter_init, table_period, bind in H. cbn in H.
  destruct (nth_error table (Z.to_nat (currentFrequency s))); cbn in H; [|discriminate].
  inv H; cbn. repeat split; auto; try lia;
    unfold to_uint16; apply Z.mod_pos_bound; lia.
Qed.

(** X1: whatever the arguments of the calls, the timer and the period stay
    16-bit values, the pulse width a 32-bit value and the selection an 8-bit
    value; so [transmitter_getFrequencyNumber] is always below 256. *)
Theorem values_stay_in_range : forall s0 cs s,
  well_typed s0 -> after_init table s0 cs s ->
  well_typed s /\ 0 <= transmitter_getFrequencyNumber s < 256.
Proof.
  intros s0 cs s H0 H. unfold after_init, bind in H.
  destruct (transmitter_init table s0) as [s1|] eqn:Ei; [|discriminate].
  assert (Hs : well_typed s).
  { apply (exec_invariant well_typed (fun _ => True)
             (fun c a b _ Ha Hab => exec_call_well_typed c a b Ha Hab) cs s1 s);
      auto.
    - clear. induction cs; constructor; auto.
    - eapply init_well_typed; eauto. }
  split; [exact Hs|].
  destruct Hs as (_ & _ & _ & Hf).
  unfold transmitter_getFrequencyNumber, to_uint16.
  rewrite Z.mod_small; lia.
Qed.

(** ** Without a run request nothing is emitted *)

Lemma exec_call_idle : forall c s,
  no_run c -> idle s ->
  exists s', exec_call table c s = Some s' /\ idle s' /\
             pinWrites s' = pinWrites s.
Proof.
  intros c s Hc [Hst Hr]. unfold idle in *.
  destruct s as [st t m r w d f p md po ws]; cbn in *; subst.
  destruct c; cbn in *; try contradiction;
    try (eexists; split; [reflexivity|]; cbn; auto; fail).
  destruct Hst as [->| ->]; (eexists; split; [reflexivity|]; cbn; auto).
Qed.

(** X2: from Init or Wait without a pending request, calls other than
    [transmitter_run] never write the pin and never start a burst, and they
    are defined whatever the frequency table holds. *)
Theorem quiet_without_run : forall cs s,
  idle s -> Forall no_run cs ->
  exists s', exec cs s = Some s' /\ idle s' /\ pinWrites s' = pinWrites s.
Proof.
  induction cs as [|c cs IH]; intros s Hs Hcs.
  - exists s; auto.
  - inv Hcs. destruct (exec_call_idle c s H1 Hs) as (s1 & E1 & Hs1 & Hw1).
    destruct (IH s1 Hs1 H2) as (s' & E' & Hs' & Hw').
    exists s'. cbn. rewrite E1. cbn. repeat split; auto; try apply Hs'.
    congruence.
Qed.


(** ** The pin follows the state *)

Ltac agree :=
  repeat split; intros; try reflexivity; try discriminate; auto;
  try (match goal with H : _ \/ _ |- _ => destruct H; discriminate end).

Lemma exec_call_wave_log : forall c s s',
  wave_log s -> exec_call table c s = Some s' -> wave_log s'.
Proof.
  intros c s s' (Hpin & Halt & Hst) H.
  unfold wave_log, pin_agrees, starts_high, pin_level in *.
  destruct Hpin as (Hh & Hl & Hi).
  destruct s as [st t m r w d f p md po ws]; cbn in *.
  destruct c; cbn in H; try (inv H; cbn; auto; fail).
  unfold transmitter_tick, transition, action, table_period, bind in H.
  cbn in H.
  destruct st; cbn in H.
  - inv H; cbn. split; [agree|auto].
  - destruct r; cbn in H; [|inv H; cbn; auto].
    assert (Hnh : hd_error ws <> Some TRANSMITTER_HIGH_VALUE) by auto.
    assert (Hnew : alternating (TRANSMITTER_HIGH_VALUE :: ws) /\
                   (TRANSMITTER_HIGH_VALUE :: ws = [] \/
                    last (TRANSMITTER_HIGH_VALUE :: ws) TRANSMITTER_LOW_VALUE =
                    TRANSMITTER_HIGH_VALUE)).
    { destruct ws as [|a ws']; cbn in *; [auto|].
      split; [split; [congruence|exact Halt]|].
      destruct Hst as [?|Hst]; [discriminate|right; exact Hst]. }
    destruct m; cbn in H;
      (destruct (nth_error table (Z.to_nat f)); cbn in H; [|discriminate]);
      inv H; cbn; (split; [agree|exact Hnew]).
  - destruct (p =? 0); [discriminate|].
    specialize (Hh eq_refl).
    destruct (t mod p >? p / 2); inv H; cbn.
    + split; [agree|].
      destruct ws as [|a ws']; cbn in *; [discriminate|].
      inv Hh. split; [split; [discriminate|exact Halt]|].
      destruct Hst as [?|Hst]; [discriminate|right; exact Hst].
    + split; [agree|auto].
  - specialize (Hl eq_refl).
    destruct (t >? w); [inv H; cbn|].
    + split; [|auto]. repeat split; intros; try discriminate.
      rewrite Hl. discriminate.
    + destruct (p =? 0); [discriminate|].
      destruct (t mod p <? p / 2); inv H; cbn.
      * split; [agree|].
        destruct ws as [|a ws']; cbn in *; [discriminate|].
        inv Hl. split; [split; [discriminate|exact Halt]|].
        destruct Hst as [?|Hst]; [discriminate|right; exact Hst].
      * split; [agree|auto].
Qed.

Lemma exec_wave_log : forall cs s s',
  wave_log s -> exec cs s = Some s' -> wave_log s'.
Proof.
  intros cs s s' Hs H.
  apply (exec_invariant wave_log (fun _ => True)
           (fun c a b _ Ha Hab => exec_call_wave_log c a b Ha Hab) cs s s'); auto.
  clear. induction cs; constructor; auto.
Qed.

Lemma init_wave_log : forall s0 s1,
  pin_level s0 <> Some TRANSMITTER_HIGH_VALUE ->
  alternating (pinWrites s0) -> starts_high (pinWrites s0) ->
  transmitter_init table s0 = Some s1 -> wave_log s1.
Proof.
  intros s0 s1 Hp Ha Hs H.
  unfold transmitter_init, table_period, bind in H. cbn in H.
  destruct (nth_error table (Z.to_nat (currentFrequency s0))); cbn in H; [|discriminate].
  inv H. unfold wave_log, pin_agrees, pin_level in *; cbn.
  repeat split; auto; discriminate.
Qed.

Lemma exec_call_pin_agrees : forall c s s',
  pin_agrees s -> exec_call table c s = Some s' -> pin_agrees s'.
Proof.
  intros c s s' (Hh & Hl & Hi) H. unfold pin_agrees, pin_level in *.
  destruct s as [st t m r w d f p md po ws]; cbn in *.
  destruct c; cbn in H; try (inv H; cbn; auto; fail).
  unfold transmitter_tick, transition, action, table_period, bind in H.
  cbn in H.
  destruct st; cbn in H.
  - inv H; cbn. agree.
  - destruct r; cbn in H; [|inv H; cbn; auto].
    destruct m; cbn in H;
      (destruct (nth_error table (Z.to_nat f)); cbn in H; [|discriminate]);
      inv H; cbn; agree.
  - destruct (p =? 0); [discriminate|].
    destruct (t mod p >? p / 2); inv H; cbn; agree.
  - specialize (Hl eq_refl).
    destruct (t >? w); [inv H; cbn|].
    + repeat split; intros; try discriminate. rewrite Hl. discriminate.
    + destruct (p =? 0); [discriminate|].
      destruct (t mod p <? p / 2); inv H; cbn; agree.
Qed.

(** X3: once initialised with the pin not high, the machine drives the pin
    high exactly while it is in SignalHigh: the pin is low (or was never
    written) in Init, Wait and SignalLow, whatever calls were made. *)
Theorem pin_high_iff_signal_high : forall s0 cs s,
  pin_level s0 <> Some TRANSMITTER_HIGH_VALUE ->
  after_init table s0 cs s ->
  (pin_level s = Some TRANSMITTER_HIGH_VALUE <-> currentState s = sig_high_st) /\
  (currentState s = sig_low_st -> pin_level s = Some TRANSMITTER_LOW_VALUE).
Proof.
  intros s0 cs s Hp H. unfold after_init, bind in H.
  destruct (transmitter_init table s0) as [s1|] eqn:Ei; [|discriminate].
  assert (H1 : pin_agrees s1).
  { unfold transmitter_init, table_period, bind in Ei. cbn in Ei.
    destruct (nth_error table (Z.to_nat (currentFrequency s0))); cbn in Ei;
      [|discriminate].
    inv Ei. unfold pin_agrees, pin_level in *; cbn.
    repeat split; intros; try discriminate; auto. }
  assert (Hs : pin_agrees s).
  { apply (exec_invariant pin_agrees (fun _ => True)
             (fun c a b _ Ha Hab => exec_call_pin_agrees c a b Ha Hab) cs s1 s);
      auto.
    clear. induction cs; constructor; auto. }
  destruct Hs as (Hh & Hl & Hi).
  split; [|exact Hl]. split; [|exact Hh].
  intros Hpin. destruct (currentState s) eqn:Est; auto.
  - exfalso. apply Hi; auto.
  - exfalso. apply Hi; auto.
  - rewrite (Hl eq_refl) in Hpin. discriminate.
Qed.

(** X4: after one [transmitter_init] of a machine whose pin was never
    written, through ticks, run requests and setters (init not being called
    again), every write changes the level, and the first write is high: the
    log of writes is high, low, high, low and so on. *)
Theorem pin_writes_alternate : forall s0 cs s,
  pinWrites s0 = [] -> after_init table s0 cs s ->
  alternating (pinWrites s) /\ starts_high (pinWrites s).
Proof.
  intros s0 cs s H0 H. unfold after_init, bind in H.
  destruct (transmitter_init table s0) as [s1|] eqn:Ei; [|discriminate].
  assert (Hw : wave_log s1).
  { apply (init_wave_log s0 s1); auto.
    - unfold pin_level; rewrite H0; discriminate.
    - rewrite H0; exact I.
    - left; exact H0. }
  apply (exec_wave_log cs s1 s Hw H).
Qed.


(** ** The debug flag is used by init only *)

Lemma exec_call_except_debug : forall c s1 s2,
  set_debugOn false s1 = set_debugOn false s2 ->
  option_map (set_debugOn false) (exec_call table c s1) =
  option_map (set_debugOn false) (exec_call table c s2).
Proof.
  intros c s1 s2 Heq.
  destruct s1 as [st t m r w d f p md po ws].
  destruct s2 as [st2 t2 m2 r2 w2 d2 f2 p2 md2 po2 ws2].
  cbn in Heq. inv Heq.
  destruct c; cbn; try reflexivity.
  unfold transmitter_tick, transition, action, table_period, bind; cbn.
  destruct st2; cbn; try reflexivity.
  - destruct r2; cbn; [|reflexivity].
    destruct m2; cbn; destruct (nth_error table (Z.to_nat f2)); reflexivity.
  - destruct (p2 =? 0); [reflexivity|].
    destruct (t2 mod p2 >? p2 / 2); reflexivity.
  - destruct (t2 >? w2); [reflexivity|].
    destruct (p2 =? 0); [reflexivity|].
    destruct (t2 mod p2 <? p2 / 2); reflexivity.
Qed.

Lemma exec_except_debug : forall cs s1 s2,
  set_debugOn false s1 = set_debugOn false s2 ->
  option_map (set_debugOn false) (exec cs s1) =
  option_map (set_debugOn false) (exec cs s2).
Proof.
  induction cs as [|c cs IH]; intros s1 s2 Heq; cbn.
  - rewrite Heq; reflexivity.
  - pose proof (exec_call_except_debug c s1 s2 Heq) as Hc.
    destruct (exec_call table c s1) as [a|], (exec_call table c s2) as [b|];
      cbn in *; try discriminate; auto.
    apply IH. congruence.
Qed.

(** X9: [transmitter_setDebug] changes nothing that a tick or another call
    looks at: with and without it every sequence of calls is defined on the
    same inputs and ends in the same state, pin writes included, up to the
    flag itself. *)
Theorem debug_flag_is_inert : forall cs s b,
  option_map (set_debugOn false) (exec cs (transmitter_setDebug b s)) =
  option_map (set_debugOn false) (exec cs s).
Proof.
  intros cs s b. apply exec_except_debug. destruct s; reflexivity.
Qed.

(** ** Where a tick has no defined behaviour *)

(** A tick is undefined in exactly three situations: a burst is about to
    start and the selection lies outside the frequency table; the machine is
    in SignalHigh with a period of 0; it is in SignalLow within the pulse
    width with a period of 0.  [transmitter_init] is undefined exactly when
    the selection lies outside the table. *)
Lemma tick_undefined_iff : forall s,
  (tick s = None <->
   (currentState s = wait_st /\ running s = true /\
    (length table <= Z.to_nat (currentFrequency s))%nat) \/
   (currentState s = sig_high_st /\ period s = 0) \/
   (currentState s = sig_low_st /\ signalTimer s <= pulseWidth s /\
    period s = 0)) /\
  (transmitter_init table s = None <->
   (length table <= Z.to_nat (currentFrequency s))%nat).
Proof.
  intros s. destruct s as [st t m r w d f p md po ws].
  unfold transmitter_tick, transmitter_init, transition, action, table_period, bind.
  cbn. split.
  - destruct st; cbn.
    + split; [discriminate|]. intros [(H & _)|[(H & _)|(H & _)]]; discriminate.
    + destruct r; cbn.
      * assert (E : (if negb m then f else f) = f) by (destruct m; reflexivity).
        destruct (nth_error table (Z.to_nat f)) as [v|] eqn:En.
        -- assert (Hlt : (Z.to_nat f < length table)%nat).
           { apply nth_error_Some. rewrite En. discriminate. }
           destruct m; cbn; rewrite En; cbn;
             (split; [discriminate|]);
             intros [(_ & _ & H)|[(H & _)|(H & _)]]; try discriminate; lia.
        -- pose proof (proj1 (nth_error_None _ _) En) as Hlen.
           destruct m; cbn; rewrite En; cbn;
             (split; [intros _; left; auto|reflexivity]).
      * split; [discriminate|].
        intros [(_ & H & _)|[(H & _)|(H & _)]]; discriminate.
    + destruct (Z.eqb_spec p 0) as [E0|E0].
      * split; [intros _; right; left; auto|reflexivity].
      * destruct (t mod p >? p / 2); cbn; (split; [discriminate|]);
          intros [(H & _)|[(_ & H)|(H & _)]]; try discriminate; contradiction.
    + destruct (Z.gtb_spec t w) as [Hg|Hg]; cbn.
      * split; [discriminate|].
        intros [(H & _)|[(H & _)|(_ & H & _)]]; try discriminate; lia.
      * destruct (Z.eqb_spec p 0) as [E0|E0].
        -- split; [intros _; right; right; auto|reflexivity].
        -- destruct (t mod p <? p / 2); cbn; (split; [discriminate|]);
             intros [(H & _)|[(H & _)|(_ & _ & H)]]; try discriminate; contradiction.
  - destruct (nth_error table (Z.to_nat f)) as [v|] eqn:En; cbn.
    + split; [discriminate|]. intros H.
      apply nth_error_None in H. congruence.
    + split; [intros _; apply nth_error_None; exact En|reflexivity].
Qed.


(** ** Start-up, burst length and continuous operation *)

(** X5: a run request made right after [transmitter_init] is not lost: the
    first tick only leaves Init, the second starts the burst with the period
    that init cached, writing the pin high once. *)
Theorem run_after_init_starts_on_second_tick : forall s0 s1,
  transmitter_init table s0 = Some s1 ->
  exists sw sh,
    tick (transmitter_run s1) = Some sw /\ currentState sw = wait_st /\
    running sw = true /\ pinWrites sw = pinWrites s0 /\
    tick sw = Some sh /\ at_burst_start sh /\ period sh = period s1 /\
    running sh = continuousModeOn s0 /\
    pinWrites sh = TRANSMITTER_HIGH_VALUE :: pinWrites s0.
Proof.
  intros s0 s1 H.
  pose proof (init_period s0 s1 H) as Hp.
  unfold transmitter_init, bind in H.
  destruct (table_period table _) as [p|] eqn:Ep; [|discriminate].
  inv H. cbn in Hp.
  set (sw := set_currentState wait_st
               (transmitter_run
                  (mio_setPinAsOutput
                     (mio_init (debugOn s0)
                        (set_period p
                           (set_running false
                              (set_signalTimer 0 (set_currentState init_st s0)))))))).
  assert (Ew : table_period table sw = Some p).
  { unfold table_period in *. cbn in *. congruence. }
  exists sw. eexists. split; [reflexivity|]. split; [reflexivity|].
  split; [reflexivity|]. split; [reflexivity|].
  split; [apply (tick_wait_start sw p); [reflexivity|reflexivity|exact Ew]|].
  unfold at_burst_start; cbn. repeat split; reflexivity.
Qed.

(** X6: the length of a one-shot burst.  With pulse width [P] and period [T]
    the machine is back in Wait after exactly [P + 2] ticks when timer value
    [P] falls in the low half of a period, and after [P + 3 + T/2 - P mod T]
    ticks when it falls in the high half, and not before: the burst outlasts
    the pulse width until the running high half is over. *)
Theorem one_shot_burst_length : forall s P T,
  currentState s = wait_st -> continuousModeOn s = false ->
  pulseWidth s = P -> table_period table s = Some T ->
  3 <= T -> 0 <= P -> P + T < 65536 ->
  exists s',
    nticks (Z.to_nat (one_shot_length P T)) (transmitter_run s) = Some s' /\
    currentState s' = wait_st /\
    (forall m sm,
       (1 <= m < Z.to_nat (one_shot_length P T))%nat ->
       nticks m (transmitter_run s) = Some sm -> in_signal sm).
Proof.
  intros s P T Hw Hm HP HTab HT HP0 Hsum.
  pose proof (half_period_bounds T HT) as [Hh1 Hh2].
  assert (E0 : tick (transmitter_run s) =
               Some (mkTransmitter sig_high_st 1 false false P (debugOn s)
                       (currentFrequency s) T (mioDebug s) (pinIsOutput s)
                       (TRANSMITTER_HIGH_VALUE :: pinWrites s))).
  { rewrite (tick_wait_start (transmitter_run s) T); cbn; auto.
    rewrite Hm, HP. reflexivity. }
  match type of E0 with _ = Some ?x => set (s1 := x) in * end.
  destruct (burst_pattern (Z.to_nat P) s1) as (sP & Hrun & Hcfg & Ht & Hst & Hpin);
    try reflexivity.
  { change (3 <= T); lia. }
  { change (Z.of_nat (Z.to_nat P) <= P); lia. }
  { change (P < 65535); lia. }
  rewrite Z2Nat.id in * by lia.
  destruct Hcfg as (Hper & Hpw & _). cbn in Hper, Hpw.
  change (period s1) with T in *.
  unfold state_at in Hst.
  pose proof (Z.mod_pos_bound P T ltac:(lia)) as HmP.
  assert (Hfin : forall n s', burst_run n sP s' -> currentState s' = wait_st ->
            exists s'', nticks (S (Z.to_nat P + n)) (transmitter_run s) = Some s'' /\
              currentState s'' = wait_st /\
              (forall m sm, (1 <= m < S (Z.to_nat P + n))%nat ->
                 nticks m (transmitter_run s) = Some sm -> in_signal sm)).
  { intros n s' Hrun' Hw'.
    pose proof (burst_run_app _ _ _ _ _ Hrun Hrun') as Hall.
    destruct (burst_run_ticks _ _ _ Hall) as [Eall Hstay].
    exists s'. split; [cbn [ticks]; rewrite E0; exact Eall|]. split; [exact Hw'|].
    intros [|m] sm Hm' Hsm; [lia|]. cbn [ticks] in Hsm. rewrite E0 in Hsm.
    apply (Hstay m sm); [lia|exact Hsm]. }
  unfold one_shot_length.
  destruct (P mod T <=? T / 2) eqn:Eph.
  - apply Z.leb_le in Eph.
    destruct (mod_succ_cases T P ltac:(lia) ltac:(lia)) as [[M1 M2]|[M1 M2]]; [|lia].
    set (d := Z.to_nat (T / 2 - P mod T)).
    assert (Hd : Z.of_nat d = T / 2 - P mod T) by (subst d; apply Z2Nat.id; lia).
    clearbody d.
    destruct (high_exits d sP Hst) as (s' & Hrun' & Hw' & _);
      rewrite ?Hper, ?Hpw, ?Ht; try lia.
    replace (Z.to_nat (P + 3 + T / 2 - P mod T)) with (S (Z.to_nat P + (d + 2))) by lia.
    apply (Hfin _ s' Hrun' Hw').
  - apply Z.leb_gt in Eph.
    replace (Z.to_nat (P + 2)) with (S (Z.to_nat P + 1)) by lia.
    apply (Hfin 1%nat (set_currentState wait_st sP)); [|reflexivity].
    econstructor; [right; exact Hst| |constructor].
    apply tick_low_wait; [exact Hst|lia].
Qed.


(** X7: in continuous mode, with a period of at least 3 and the timer and
    the pulse width far enough below 2^16 for the burst to end before the
    timer wraps, a frequency selected during a burst is taken up at the next
    burst: the burst in flight ends on the period it had, and the tick after
    its return to Wait starts a burst on the table entry of the new
    selection, the run request still set. *)
Theorem continuous_frequency_change_at_burst_boundary : forall s n T',
  in_signal s -> pin_matches s ->
  continuousModeOn s = true -> running s = true ->
  3 <= period s -> 0 <= signalTimer s ->
  signalTimer s + period s / 2 + 2 <= 65535 ->
  pulseWidth s + period s / 2 + 3 <= 65535 ->
  table_period table (transmitter_setFrequencyNumber n s) = Some T' ->
  exists k sw sh,
    burst_run k (transmitter_setFrequencyNumber n s) sw /\
    currentState sw = wait_st /\ period sw = period s /\
    tick sw = Some sh /\ at_burst_start sh /\ period sh = T' /\
    running sh = true /\ continuousModeOn sh = true.
Proof.
  intros s n T' Hin Hpm Hc Hr HT Ht Hmax HP HTab.
  set (s0 := transmitter_setFrequencyNumber n s) in *.
  destruct (burst_completes s0 Hin Hpm HT Ht Hmax HP)
    as (k & sw & Hrun & Hw & (Hper & Hpw & Hr' & Hc' & Hf) & _ & _).
  cbn in Hper, Hpw, Hr', Hc'.
  assert (HTab' : table_period table sw = Some T').
  { unfold table_period in *. rewrite Hf. exact HTab. }
  exists k, sw. eexists.
  split; [exact Hrun|]. split; [exact Hw|]. split; [exact Hper|].
  split; [apply (tick_wait_start sw T' Hw ltac:(congruence) HTab')|].
  unfold at_burst_start; cbn. rewrite Hc', Hc. repeat split; reflexivity.
Qed.

(** One cycle of continuous operation: from the start of a burst to the
    start of the next, which differs in the pin log only. *)
Lemma continuous_cycle : forall s,
  at_burst_start s -> continuousModeOn s = true -> running s = true ->
  table_period table s = Some (period s) -> 3 <= period s ->
  0 <= pulseWidth s -> pulseWidth s + period s / 2 + 3 <= 65535 ->
  exists n sw s',
    (1 <= n)%nat /\ burst_run n s sw /\ currentState sw = wait_st /\
    tick sw = Some s' /\ at_burst_start s' /\ same_config s s'.
Proof.
  intros s (Hs & Ht & Hpin) Hc Hr HTab HT HP0 HP.
  assert (Hin : in_signal s) by (left; exact Hs).
  assert (Hpm : pin_matches s).
  { split; intros H; [exact Hpin|rewrite Hs in H; discriminate]. }
  destruct (burst_completes s Hin Hpm HT ltac:(lia) ltac:(lia) HP)
    as (n & sw & Hrun & Hw & (Hper & Hpw & Hr' & Hc' & Hf) & _ & Hn).
  assert (HTab' : table_period table sw = Some (period s)).
  { unfold table_period in *. rewrite Hf. exact HTab. }
  exists n, sw. eexists.
  split; [exact Hn|]. split; [exact Hrun|]. split; [exact Hw|].
  split; [apply (tick_wait_start sw (period s) Hw ltac:(congruence) HTab')|].
  split; [unfold at_burst_start; cbn; auto|].
  unfold same_config; cbn. rewrite Hc', Hc, Hr. auto.
Qed.

(** X8: continuous operation repeats for ever.  From the start of a burst in
    continuous mode, the burst returns to Wait and the very next tick starts
    the next burst on the same configuration; so however many ticks have
    passed, a later tick starts a burst again. *)
Theorem continuous_bursts_repeat : forall s,
  at_burst_start s -> continuousModeOn s = true -> running s = true ->
  table_period table s = Some (period s) -> 3 <= period s ->
  0 <= pulseWidth s -> pulseWidth s + period s / 2 + 3 <= 65535 ->
  (exists n sw s',
     (1 <= n)%nat /\ burst_run n s sw /\ currentState sw = wait_st /\
     nticks (S n) s = Some s' /\ at_burst_start s' /\ same_config s s') /\
  (forall k, exists m s',
     (k <= m)%nat /\ nticks m s = Some s' /\ at_burst_start s' /\
     same_config s s').
Proof.
  intros s Hs Hc Hr HTab HT HP0 HP. split.
  - destruct (continuous_cycle s Hs Hc Hr HTab HT HP0 HP)
      as (n & sw & s' & Hn & Hrun & Hw & E & Hs' & Hcfg).
    exists n, sw, s'. repeat split; try assumption; try apply Hs'; try apply Hcfg.
    replace (S n) with (n + 1)%nat by lia.
    rewrite ticks_add, (proj1 (burst_run_ticks _ _ _ Hrun)). cbn. rewrite E. reflexivity.
  - intros k. induction k as [|k IH].
    + exists 0%nat, s. split; [lia|]. split; [reflexivity|].
      split; [exact Hs|apply same_config_refl].
    + destruct IH as (m & s1 & Hm & E1 & Hs1 & Hcfg1).
      pose proof Hcfg1 as (Hper & Hpw & Hr1 & Hc1 & Hf).
      assert (HTab1 : table_period table s1 = Some (period s1)).
      { unfold table_period in *. rewrite Hf, Hper. exact HTab. }
      destruct (continuous_cycle s1 Hs1) as (n & sw & s' & Hn & Hrun & Hw & E & Hs' & Hcfg);
        try congruence; try (rewrite ?Hper, ?Hpw; assumption).
      exists (m + (n + 1))%nat, s'. split; [lia|]. split.
      * rewrite ticks_add, E1. cbn [bind].
        rewrite ticks_add, (proj1 (burst_run_ticks _ _ _ Hrun)). cbn. rewrite E. reflexivity.
      * split; [exact Hs'|]. eapply same_config_trans; eauto.
Qed.

(** X10: the pulse width is read on every tick of the low half, so, with a
    period of at least 3 and the timer at least half a period below its
    wrap, a width set below the current timer during a burst ends that
    burst: from SignalLow on the next tick, from SignalHigh after the running
    high half, within T/2 + 3 ticks in all, with the pin left low. *)
Theorem shortened_pulse_width_ends_burst : forall s w,
  in_signal s -> pin_matches s -> 3 <= period s -> 0 <= signalTimer s ->
  to_uint32 w < signalTimer s ->
  signalTimer s + period s / 2 + 2 <= 65535 ->
  exists n s',
    burst_run n (transmitter_setPulseWidth w s) s' /\
    currentState s' = wait_st /\
    pin_level s' = Some TRANSMITTER_LOW_VALUE /\
    (1 <= n)%nat /\ Z.of_nat n <= period s / 2 + 3 /\
    (currentState s = sig_low_st -> n = 1%nat).
Proof.
  intros s w Hin Hpm HT Ht Hw Hmax.
  set (s0 := transmitter_setPulseWidth w s).
  destruct Hin as [Hs|Hs].
  - destruct (burst_exits s0 (or_introl Hs) Hpm HT Hw Ht Hmax)
      as (n & s' & Hrun & Hw' & _ & Hpin & Hn & Hn').
    exists n, s'. repeat split; auto.
    intros H; rewrite Hs in H; discriminate.
  - exists 1%nat, (set_currentState wait_st s0).
    pose proof (half_period_bounds _ HT) as [Hh1 Hh2].
    split.
    + econstructor; [right; exact Hs| |constructor].
      apply tick_low_wait; [exact Hs|exact Hw].
    + split; [reflexivity|]. split; [apply Hpm; exact Hs|].
      split; [lia|]. split; [lia|auto].
Qed.


(** ** The loop of the polling test *)

Local Abbreviation test_loop := (tick_while_running table).

Lemma test_loop_stops : forall fuel s,
  running s = false -> test_loop fuel s = Finished s.
Proof.
  intros fuel s Hr. destruct fuel; cbn; unfold transmitter_running; rewrite Hr;
    reflexivity.
Qed.

Lemma test_loop_step : forall fuel s s1,
  running s = true -> tick s = Some s1 ->
  test_loop (S fuel) s = test_loop fuel s1.
Proof.
  intros fuel s s1 Hr E. cbn. unfold transmitter_running. rewrite Hr, E.
  reflexivity.
Qed.

(** With the request set, the loop ticks through the burst in flight. *)
Lemma test_loop_through_burst : forall n s s',
  burst_run n s s' -> running s = true ->
  running s' = true /\
  forall fuel, test_loop (n + fuel) s = test_loop fuel s'.
Proof.
  induction 1 as [s|n s s1 s' Hin E Hrun IH]; intros Hr.
  - split; [exact Hr|reflexivity].
  - destruct (tick_except_running s s s1 Hin eq_refl E) as (Hr1 & _).
    destruct (IH ltac:(congruence)) as (Hr' & Hloop).
    split; [exact Hr'|]. intros fuel.
    change (S n + fuel)%nat with (S (n + fuel)).
    rewrite (test_loop_step _ s s1 Hr E). apply Hloop.
Qed.

Lemma test_loop_starts_burst : forall s T fuel,
  currentState s = init_st \/ currentState s = wait_st ->
  continuousModeOn s = false -> table_period table s = Some T ->
  (2 <= fuel)%nat ->
  exists s',
    test_loop fuel (transmitter_run s) = Finished s' /\
    at_burst_start s' /\ running s' = false /\ period s' = T /\
    pinWrites s' = TRANSMITTER_HIGH_VALUE :: pinWrites s.
Proof.
  intros s T fuel Hst Hc HTab Hfuel.
  destruct fuel as [|[|fuel]]; try lia.
  assert (Hstart : forall f sw, currentState sw = wait_st -> running sw = true ->
            continuousModeOn sw = false -> table_period table sw = Some T ->
            pinWrites sw = pinWrites s ->
            exists s', test_loop (S f) sw = Finished s' /\
              at_burst_start s' /\ running s' = false /\ period s' = T /\
              pinWrites s' = TRANSMITTER_HIGH_VALUE :: pinWrites s).
  { intros f sw Hw Hr Hc' HT' Hws.
    pose proof (tick_wait_start sw T Hw Hr HT') as E.
    rewrite Hc' in E.
    eexists. rewrite (test_loop_step f sw _ Hr E).
    split; [apply test_loop_stops; reflexivity|].
    unfold at_burst_start; cbn. rewrite Hws. repeat split; reflexivity. }
  destruct Hst as [Hi|Hw].
  - assert (E : tick (transmitter_run s) =
                Some (set_currentState wait_st (transmitter_run s))).
    { destruct s; cbn in *; subst; reflexivity. }
    rewrite (test_loop_step (S fuel) (transmitter_run s) _ (eq_refl true) E).
    apply Hstart; try reflexivity; auto.
  - apply Hstart; try reflexivity; auto.
Qed.

(** X11: started from Init or Wait in one-shot mode, the loop
    [while (transmitter_running()) transmitter_tick();] that follows
    [transmitter_run] does not last as long as the burst: it ends on the
    tick that starts the burst, with the machine in SignalHigh, the timer at
    1 and the pin just written high. *)
Theorem test_loop_returns_at_burst_start : forall s T fuel,
  currentState s = init_st \/ currentState s = wait_st ->
  continuousModeOn s = false -> table_period table s = Some T ->
  (2 <= fuel)%nat ->
  exists s',
    test_loop fuel (transmitter_run s) = Finished s' /\
    at_burst_start s' /\ running s' = false /\ period s' = T /\
    pinWrites s' = TRANSMITTER_HIGH_VALUE :: pinWrites s.
Proof. exact test_loop_starts_burst. Qed.

(** X12: in continuous mode the same loop never ends: on a table of positive
    periods it neither returns nor runs into undefined behaviour, whatever
    the number of ticks allowed. *)
Theorem test_loop_never_ends_in_continuous_mode : forall fuel s,
  continuousModeOn s = true -> table_ok table -> safe table s ->
  test_loop fuel (transmitter_run s) = OutOfFuel.
Proof.
  intros fuel s Hc Htab Hsafe.
  assert (Hgen : forall f a, continuousModeOn a = true -> running a = true ->
            safe table a -> test_loop f a = OutOfFuel).
  { induction f as [|f IH]; intros a Ha Hr Hs.
    - cbn. unfold transmitter_running. rewrite Hr. reflexivity.
    - destruct (exec_call_safe Tick a Htab I Hs) as (a1 & E & Hs1).
      cbn in E.
      destruct (exec_call_keeps_running Tick a a1 I (conj Ha Hr) E) as [Ha1 Hr1].
      rewrite (test_loop_step f a a1 Hr E). apply IH; auto. }
  apply Hgen; auto.
Qed.


(** ** [transmitter_runTest] as a whole *)

Lemma burst_completes_within : forall s,
  in_signal s -> pin_matches s -> 3 <= period s -> 0 <= signalTimer s ->
  0 <= pulseWidth s ->
  signalTimer s + period s / 2 + 2 <= 65535 ->
  pulseWidth s + period s / 2 + 3 <= 65535 ->
  exists n s', burst_run n s s' /\ currentState s' = wait_st /\
               same_config s s' /\
               Z.of_nat n <= pulseWidth s + period s / 2 + 4.
Proof.
  intros s Hin Hpm HT Ht HP0 Hmax HP.
  pose proof (half_period_bounds _ HT) as [Hh1 Hh2].
  destruct (Z_lt_le_dec (pulseWidth s) (signalTimer s)) as [Hc|Hc].
  - destruct (burst_exits s Hin Hpm HT Hc Ht Hmax)
      as (n & s' & Hrun & Hw & Hcfg & _ & _ & Hn).
    exists n, s'. repeat split; try apply Hcfg; auto. lia.
  - set (d := Z.to_nat (pulseWidth s + 1 - signalTimer s)).
    assert (Hd : Z.of_nat d = pulseWidth s + 1 - signalTimer s)
      by (subst d; apply Z2Nat.id; lia).
    clearbody d.
    destruct (burst_advances d s Hin ltac:(lia) Ht ltac:(lia) ltac:(lia))
      as (s1 & Hrun1 & Hin1 & Hcfg1 & Ht1 & Hpm1).
    pose proof Hcfg1 as (A & B & _).
    assert (HT1 : 3 <= period s1) by (rewrite A; lia).
    assert (HP1 : pulseWidth s1 < signalTimer s1) by (rewrite B, Ht1; lia).
    assert (Hmax1 : signalTimer s1 + period s1 / 2 + 2 <= 65535)
      by (rewrite A, Ht1; lia).
    destruct (burst_exits s1 Hin1 (Hpm1 Hpm) HT1 HP1 ltac:(lia) Hmax1)
      as (n & s' & Hrun & Hw & Hcfg & _ & _ & Hn).
    rewrite A in Hn.
    exists (d + n)%nat, s'.
    split; [eapply burst_run_app; eauto|]. split; [exact Hw|].
    split; [eapply same_config_trans; eauto|]. lia.
Qed.

(** The loop started during a burst: it lasts until the burst is over and
    the next one has started. *)
Lemma test_loop_during_burst : forall s T' fuel,
  in_signal s -> pin_matches s -> continuousModeOn s = false ->
  3 <= period s -> 0 <= signalTimer s -> 0 <= pulseWidth s ->
  signalTimer s + period s / 2 + 2 <= 65535 ->
  pulseWidth s + period s / 2 + 3 <= 65535 ->
  table_period table s = Some T' ->
  pulseWidth s + period s / 2 + 5 <= Z.of_nat fuel ->
  exists s',
    test_loop fuel (transmitter_run s) = Finished s' /\
    at_burst_start s' /\ running s' = false /\ period s' = T' /\
    continuousModeOn s' = false /\ pulseWidth s' = pulseWidth s /\
    currentFrequency s' = currentFrequency s /\ debugOn s' = debugOn s.
Proof.
  intros s T' fuel Hin Hpm Hc HT Ht HP0 Hmax HP HTab Hfuel.
  destruct (burst_completes_within (transmitter_run s) Hin Hpm HT Ht HP0 Hmax HP)
    as (n & sw & Hrun & Hw & (Hper & Hpw & Hr & Hc' & Hf) & Hn).
  cbn in Hper, Hpw, Hr, Hc', Hf, Hn.
  destruct (test_loop_through_burst n _ sw Hrun eq_refl) as (_ & Hloop).
  replace fuel with (n + S (fuel - n - 1))%nat by lia.
  rewrite Hloop.
  assert (HTab' : table_period table sw = Some T').
  { unfold table_period in *. rewrite Hf. exact HTab. }
  pose proof (tick_wait_start sw T' Hw Hr HTab') as E.
  rewrite (test_loop_step _ sw _ Hr E).
  eexists. split; [apply test_loop_stops; cbn; congruence|].
  unfold at_burst_start; cbn.
  destruct (ticks_keep_config n _ sw (proj1 (burst_run_ticks _ _ _ Hrun)))
    as (_ & _ & _ & Hdbg). cbn in Hdbg.
  repeat split; auto; congruence.
Qed.


Lemma switch_value_in_table : forall COUNT r,
  COUNT = Z.of_nat (length table) -> 0 < COUNT <= 256 -> 0 <= r ->
  switch_value COUNT r = Some (r mod COUNT) /\
  to_uint8 (to_uint16 (r mod COUNT)) = r mod COUNT /\
  (Z.to_nat (r mod COUNT) < length table)%nat.
Proof.
  intros COUNT r HC Hr0 Hr.
  pose proof (Z.mod_pos_bound r COUNT ltac:(lia)) as Hm.
  unfold switch_value.
  destruct (Z.eqb_spec COUNT 0) as [E|E]; [lia|].
  rewrite Z.rem_mod_nonneg by lia.
  unfold to_uint16, to_uint8.
  rewrite (Z.mod_small (r mod COUNT) 65536) by lia.
  rewrite (Z.mod_small (r mod COUNT) 256) by lia.
  repeat split; auto. lia.
Qed.

Lemma table_period_ok : forall s,
  table_periods_ok table ->
  (Z.to_nat (currentFrequency s) < length table)%nat ->
  exists T, table_period table s = Some T /\ 3 <= T < 65536.
Proof.
  intros s Htab Hf. unfold table_period.
  destruct (nth_error_defined table _ Hf) as [v Hv]. rewrite Hv. cbn.
  exists (to_uint16 v). split; [reflexivity|].
  unfold table_periods_ok in Htab. rewrite Forall_forall in Htab.
  split; [apply Htab; eapply nth_error_In; eauto|].
  unfold to_uint16. apply Z.mod_pos_bound. lia.
Qed.

(** What the loop returns was reached by ticks, and is not running. *)
Lemma test_loop_ticks : forall fuel s s',
  test_loop fuel s = Finished s' ->
  exists n, (n <= fuel)%nat /\ nticks n s = Some s' /\ running s' = false.
Proof.
  induction fuel as [|fuel IH]; intros s s' H; cbn in H;
    unfold transmitter_running in H; destruct (running s) eqn:Hr;
    try discriminate.
  - inv H. exists 0%nat. auto.
  - destruct (tick s) as [s1|] eqn:E; [|discriminate].
    destruct (IH s1 s' H) as (n & Hn & En & Hr').
    exists (S n). split; [lia|]. cbn. rewrite E. auto.
  - inv H. exists 0%nat. split; [lia|]. auto.
Qed.

(** One pass of the loop of the test. *)
Lemma runTest_iteration_ready : forall COUNT fuel r s,
  table_periods_ok table ->
  COUNT = Z.of_nat (length table) -> 0 < COUNT <= 256 -> 0 <= r ->
  test_ready s -> 33000 <= Z.of_nat fuel ->
  exists s',
    runTest_iteration table COUNT fuel r s = Finished s' /\
    test_ready s' /\ at_burst_start s' /\ running s' = false /\
    currentFrequency s' = r mod COUNT /\
    table_period table s' = Some (period s') /\ debugOn s' = debugOn s.
Proof.
  intros COUNT fuel r s Htab HC HC0 Hr (Hc & Hpw & Hst) Hfuel.
  destruct (switch_value_in_table COUNT r HC HC0 Hr) as (Hsv & Hu8 & Hidx).
  unfold runTest_iteration. rewrite Hsv.
  set (v := r mod COUNT) in *.
  set (sa := transmitter_setFrequencyNumber v s).
  assert (Hfa : currentFrequency sa = v) by exact Hu8.
  destruct (table_period_ok sa Htab ltac:(rewrite Hfa; exact Hidx))
    as (T' & HTab & HT').
  assert (Hfin : forall s', at_burst_start s' -> running s' = false ->
            period s' = T' -> continuousModeOn s' = false ->
            pulseWidth s' = 200 -> currentFrequency s' = v ->
            debugOn s' = debugOn s ->
            test_ready s' /\ at_burst_start s' /\ running s' = false /\
            currentFrequency s' = v /\
            table_period table s' = Some (period s') /\ debugOn s' = debugOn s).
  { intros s' Hb Hr' Hp' Hc' Hw' Hf' Hd'.
    split; [unfold test_ready; repeat split; auto; try (right; split; [exact Hb|lia])|].
    repeat split; auto; try apply Hb.
    unfold table_period in *. rewrite Hf', Hp', <- Hfa. exact HTab. }
  destruct Hst as [Hi|[Hb HT]].
  - destruct (test_loop_starts_burst sa T' fuel (or_introl Hi) Hc HTab ltac:(lia))
      as (s' & E & Hb & Hr' & Hp' & Hws).
    exists s'. split; [exact E|].
    destruct (test_loop_ticks _ _ _ E) as (n & _ & En & _).
    destruct (ticks_keep_config n _ s' En) as (A & B & C & D).
    cbn in A, B, C, D.
    apply Hfin; auto; congruence.
  - pose proof Hb as (Hs & Ht & Hpin).
    assert (Hhalf : period s / 2 <= 32767) by (clear - HT; Z.div_mod_to_equations; lia).
    assert (B1 : in_signal sa) by (left; exact Hs).
    assert (B2 : pin_matches sa).
    { split; intros H; [exact Hpin|]. change (currentState s = sig_low_st) in H.
      rewrite Hs in H; discriminate. }
    assert (B3 : 3 <= period sa) by (change (3 <= period s); lia).
    assert (B4 : 0 <= signalTimer sa) by (change (0 <= signalTimer s); lia).
    assert (B5 : 0 <= pulseWidth sa) by (change (0 <= pulseWidth s); lia).
    assert (B6 : signalTimer sa + period sa / 2 + 2 <= 65535)
      by (change (signalTimer s + period s / 2 + 2 <= 65535); lia).
    assert (B7 : pulseWidth sa + period sa / 2 + 3 <= 65535)
      by (change (pulseWidth s + period s / 2 + 3 <= 65535); lia).
    assert (B8 : pulseWidth sa + period sa / 2 + 5 <= Z.of_nat fuel)
      by (change (pulseWidth s + period s / 2 + 5 <= Z.of_nat fuel); lia).
    destruct (test_loop_during_burst sa T' fuel B1 B2 Hc B3 B4 B5 B6 B7 HTab B8)
      as (s' & E & Hb' & Hr' & Hp' & Hc' & Hw' & Hf' & Hd').
    exists s'. split; [exact E|].
    apply Hfin; auto; try congruence.
    + rewrite Hw'. exact Hpw.
Qed.


Lemma wait_release_defined : forall buttons,
  In 0 buttons -> exists rest, wait_release buttons = Some rest.
Proof.
  induction buttons as [|b bs IH]; intros H; [contradiction|].
  cbn. destruct (Z.eqb_spec b 0) as [E|E]; [eauto|].
  destruct H as [H|H]; [congruence|auto].
Qed.

(** The loop of the test over the readings made while button 3 is up. *)
Lemma runTest_loop_ready : forall BTN3 COUNT fuel held switches b3 rest s,
  table_periods_ok table ->
  COUNT = Z.of_nat (length table) -> 0 < COUNT <= 256 ->
  33000 <= Z.of_nat fuel ->
  Forall (fun b => Z.land b BTN3 = 0) held -> Z.land b3 BTN3 <> 0 ->
  length switches = length held -> Forall (fun r => 0 <= r) switches ->
  test_ready s ->
  exists s',
    runTest_loop table BTN3 COUNT fuel (held ++ b3 :: rest) switches s =
      Finished (s', rest) /\
    test_ready s' /\ debugOn s' = debugOn s /\
    (held = [] -> s' = s) /\
    (held <> [] ->
     at_burst_start s' /\ running s' = false /\
     currentFrequency s' = last switches 0 mod COUNT /\
     table_period table s' = Some (period s')).
Proof.
  intros BTN3 COUNT fuel held switches b3 rest s Htab HC HC0 Hfuel.
  subst COUNT. set (COUNT := Z.of_nat (length table)) in *.
  assert (HC : COUNT = Z.of_nat (length table)) by reflexivity.
  clearbody COUNT.
  revert switches s.
  induction held as [|b held IH]; intros switches s Hheld Hb3 Hlen Hsw Hs.
  - cbn. destruct (Z.eqb_spec (Z.land b3 BTN3) 0) as [E|E]; [contradiction|].
    exists s. split; [reflexivity|]. split; [exact Hs|]. split; [reflexivity|].
    split; [reflexivity|]. intros H; exfalso; apply H; reflexivity.
  - destruct switches as [|r switches]; [discriminate|].
    inversion Hheld as [|? ? H1 H2 Eh]; clear Hheld.
    inversion Hsw as [|? ? H3 H4 Es]; clear Hsw.
    cbn [app runTest_loop].
    destruct (Z.eqb_spec (Z.land b BTN3) 0) as [E|E]; [|contradiction].
    destruct (runTest_iteration_ready COUNT fuel r s Htab HC HC0 H3 Hs Hfuel)
      as (s1 & E1 & Hs1 & Hb1 & Hr1 & Hf1 & HT1 & Hd1).
    rewrite E1.
    destruct (IH switches s1 H2 Hb3 ltac:(cbn in Hlen; lia) H4 Hs1)
      as (s' & E' & Hs' & Hd' & Hnil & Hcons).
    exists s'. split; [exact E'|]. split; [exact Hs'|]. split; [congruence|].
    split; [discriminate|]. intros _.
    destruct held as [|b' held'].
    + rewrite (Hnil eq_refl).
      destruct switches; [|discriminate]. cbn. auto.
    + destruct (Hcons ltac:(discriminate)) as (A & B & C & D).
      repeat split; auto; try apply A.
      destruct switches as [|r' sw']; [discriminate|]. exact C.
Qed.

(** X13: [transmitter_runTest] on a table of periods of at least 3 ticks,
    started in one-shot mode, made to pass through its loop at least once and
    then stopped with button 3.  It returns while a burst has just begun:
    the machine is in SignalHigh with the timer at 1 and the pin high, no
    request pending, on the frequency of the last reading of the switches,
    with the debug flag cleared and the pulse width set back to
    [TRANSMITTER_PULSE_WIDTH]. *)
Theorem runTest_returns_at_burst_start :
  forall PW BTN3 COUNT fuel held switches b3 rest s,
  table_periods_ok table ->
  COUNT = Z.of_nat (length table) -> 0 < COUNT <= 256 ->
  33000 <= Z.of_nat fuel ->
  continuousModeOn s = false ->
  (Z.to_nat (currentFrequency s) < length table)%nat ->
  held <> [] -> Forall (fun b => Z.land b BTN3 = 0) held ->
  Z.land b3 BTN3 <> 0 -> In 0 rest ->
  length switches = length held -> Forall (fun r => 0 <= r) switches ->
  exists s',
    transmitter_runTest table PW BTN3 COUNT fuel (held ++ b3 :: rest) switches s =
      Finished s' /\
    currentState s' = sig_high_st /\ signalTimer s' = 1 /\
    pin_level s' = Some TRANSMITTER_HIGH_VALUE /\
    transmitter_running s' = false /\
    transmitter_getFrequencyNumber s' = last switches 0 mod COUNT /\
    table_period table s' = Some (period s') /\
    debugOn s' = false /\ pulseWidth s' = to_uint32 PW.
Proof.
  intros PW BTN3 COUNT fuel held switches b3 rest s Htab HC HC0 Hfuel Hc Hf
         Hne Hheld Hb3 Hrel Hlen Hsw.
  unfold transmitter_runTest.
  set (s0 := transmitter_setPulseWidth 200 (transmitter_setDebug true s)).
  destruct (table_period_ok s0 Htab Hf) as (T0 & HT0 & _).
  assert (Ei : transmitter_init table s0 =
               Some (mio_setPinAsOutput
                       (mio_init (debugOn s0)
                          (set_period T0
                             (set_running false
                                (set_signalTimer 0 (set_currentState init_st s0))))))).
  { unfold transmitter_init, bind.
    change (table_period table
              (set_running false (set_signalTimer 0 (set_currentState init_st s0))))
      with (table_period table s0).
    rewrite HT0. reflexivity. }
  rewrite Ei.
  match type of Ei with _ = Some ?x => set (si := x) in * end.
  assert (Hsi : test_ready si).
  { unfold test_ready. split; [exact Hc|]. split; [reflexivity|left; reflexivity]. }
  destruct (runTest_loop_ready BTN3 COUNT fuel held switches b3 rest si
              Htab HC HC0 Hfuel Hheld Hb3 Hlen Hsw Hsi)
    as (s' & E & _ & _ & _ & Hcons).
  destruct (Hcons Hne) as ((Hst & Ht & Hpin) & Hr & Hfreq & HTab).
  rewrite E.
  destruct (wait_release_defined rest Hrel) as (rest' & Erel). rewrite Erel.
  eexists. split; [reflexivity|].
  cbn. repeat split; auto.
  unfold transmitter_getFrequencyNumber; cbn. rewrite Hfreq.
  pose proof (Z.mod_pos_bound (last switches 0) COUNT ltac:(lia)).
  unfold to_uint16. apply Z.mod_small. lia.
Qed.

(** X14: on a table of positive periods, with a selection inside the table at
    init and after every [transmitter_setFrequencyNumber], no sequence of
    calls runs into undefined behaviour: init and every call are defined, the
    selection stays inside the table and the period is positive whenever the
    machine is in a burst. *)
Theorem valid_inputs_never_undefined : forall s0 cs,
  table_ok table ->
  (Z.to_nat (currentFrequency s0) < length table)%nat ->
  Forall (valid_call table) cs ->
  exists s1 s,
    transmitter_init table s0 = Some s1 /\ exec cs s1 = Some s /\
    (in_signal s -> 0 < period s) /\
    (Z.to_nat (currentFrequency s) < length table)%nat.
Proof.
  intros s0 cs Htab Hf Hcs.
  destruct (nth_error_defined table _ Hf) as [v Hv].
  assert (Ei : transmitter_init table s0 =
               Some (mio_setPinAsOutput
                       (mio_init (debugOn s0)
                          (set_period (to_uint16 v)
                             (set_running false
                                (set_signalTimer 0 (set_currentState init_st s0))))))).
  { unfold transmitter_init, table_period, bind. cbn. rewrite Hv. reflexivity. }
  match type of Ei with _ = Some ?x => set (s1 := x) in * end.
  assert (Hs1 : safe table s1).
  { split; [exact Hf|]. intros [H|H]; discriminate H. }
  destruct (exec_safe cs s1 Htab Hcs Hs1) as (s & E & Hfs & Hps).
  exists s1, s. auto.
Qed.

End Properties.

(** * Worked instances and counterexamples *)

(** The machine on the sample table, 37 ticks after a run request. *)
Example sample_run :
  (s <- transmitter_init sample_table (power_on 20000) ;;
   ticks sample_table 37 (transmitter_run s)) =
  Some (mkTransmitter sig_low_st 36 false false 20000 false 0 68 false true [0; 1]).
Proof. vm_compute. reflexivity. Qed.

(** Builds the run of a concrete burst tick by tick. *)
Ltac run_burst :=
  repeat (eapply burst_run_S;
          [ first [left; reflexivity | right; reflexivity]
          | vm_compute; reflexivity | ]);
  apply burst_run_O.

(** C1: after [transmitter_init] and one [transmitter_run] the machine is
    still in Init, yet [transmitter_running] answers true: the answer is true
    outside SignalHigh, SignalLow and Wait. *)
Lemma running_true_in_init :
  after_init sample_table (power_on 20000) [Run]
    (mkTransmitter init_st 0 false true 20000 false 0 68 false true []) /\
  ~ running_iff_signalling
      (mkTransmitter init_st 0 false true 20000 false 0 68 false true []).
Proof.
  split; [reflexivity|].
  unfold running_iff_signalling, in_signal; cbn. intros [H _].
  destruct (H eq_refl) as [[H1|H1]|[H1 _]]; discriminate.
Qed.

(** What [transmitter_running] answers two ticks after a one-shot run: the
    machine is in SignalHigh and the answer is false. *)
Example running_false_in_one_shot_burst :
  after_init sample_table (power_on 20000) [Run; Tick; Tick]
    (mkTransmitter sig_high_st 1 false false 20000 false 0 68 false true [1]) /\
  transmitter_running
    (mkTransmitter sig_high_st 1 false false 20000 false 0 68 false true [1]) = false.
Proof. split; vm_compute; reflexivity. Qed.

(** C1: the amended statement in continuous mode, two ticks after the run
    request: the machine is in SignalHigh and reports that it is running. *)
Lemma running_reports_request_witness :
  after_init sample_table idle_continuous [Run; Tick; Tick] high_continuous /\
  transmitter_running high_continuous = true.
Proof.
  split; [reflexivity|].
  destruct (running_reports_request sample_table idle_continuous
              [Run; Tick; Tick] high_continuous eq_refl) as (_ & _ & H).
  apply H; [reflexivity | repeat constructor | left; reflexivity].
Defined.

(** C2: with period 2 and pulse width 2 (so [T <= P]) the burst started by a
    one-shot run never ends: after every number of ticks the machine is in
    SignalHigh.  With period 10 and pulse width 70000 it never ends either. *)
Lemma short_period_burst_never_ends :
  (currentState (idle_width 2) = wait_st /\
   continuousModeOn (idle_width 2) = false /\
   pulseWidth (idle_width 2) = 2 /\
   table_period table_2 (idle_width 2) = Some 2 /\ 2 <= 2 /\
   forall n, exists s',
     ticks table_2 (S n) (transmitter_run (idle_width 2)) = Some s' /\
     currentState s' = sig_high_st) /\
  (currentState (idle_width 70000) = wait_st /\
   continuousModeOn (idle_width 70000) = false /\
   pulseWidth (idle_width 70000) = 70000 /\
   table_period table_10 (idle_width 70000) = Some 10 /\ 10 <= 70000 /\
   forall n, exists s',
     ticks table_10 (S n) (transmitter_run (idle_width 70000)) = Some s' /\
     in_signal s').
Proof.
  split; (repeat (split; [reflexivity || lia|])); intros n.
  - assert (E1 : transmitter_tick table_2 (transmitter_run (idle_width 2)) =
                 Some (mkTransmitter sig_high_st 1 false false 2 false 0 2
                         false true [1])) by reflexivity.
    cbn [ticks]. rewrite E1. cbn [bind].
    apply short_period_stays_high; cbn; auto; lia.
  - assert (E1 : transmitter_tick table_10 (transmitter_run (idle_width 70000)) =
                 Some (mkTransmitter sig_high_st 1 false false 70000 false 0 10
                         false true [1])) by reflexivity.
    cbn [ticks]. rewrite E1. cbn [bind].
    destruct (ticks_wide_burst table_10 n
                (mkTransmitter sig_high_st 1 false false 70000 false 0 10 false true [1]))
      as (s' & E' & (Hs' & _) & _).
    + unfold wide_burst, in_signal; cbn. repeat split; auto; lia.
    + exists s'; auto.
Qed.

(** C2: the amended statement for the pulse width 200 and the period 68 of
    selection 0. *)
Lemma single_run_square_wave_witness :
  square_wave sample_table (transmitter_run idle_one_shot) 200 68 /\
  one_burst_then_idle sample_table (transmitter_run idle_one_shot) 200.
Proof.
  apply (single_run_square_wave sample_table idle_one_shot 200 68);
    [reflexivity | reflexivity | reflexivity | reflexivity | lia | lia].
Defined.

(** C4: ticks and a change of frequency after a run in continuous mode. *)
Lemma continuous_mode_keeps_running_witness :
  exists s',
    exec_calls sample_table [Tick; Tick; SetFrequencyNumber 3; Tick]
      (transmitter_run idle_continuous) = Some s' /\
    transmitter_running s' = true.
Proof.
  apply (continuous_mode_keeps_running sample_table idle_continuous
           [Tick; Tick; SetFrequencyNumber 3; Tick]).
  - reflexivity.
  - repeat constructor.
  - unfold table_ok, sample_table. repeat (constructor; [reflexivity|]). constructor.
  - repeat (constructor; [cbn; try exact I; lia|]). constructor.
  - split; cbn; [lia|]. intros [H|H]; discriminate.
Defined.

(** C5: a [transmitter_run] made three ticks into a one-shot burst sets the
    run request, which was clear, and the pin writes of the next 30 ticks
    differ: with the call a second burst follows the first. *)
Lemma run_during_burst_changes_behaviour :
  in_signal mid_burst /\ continuousModeOn mid_burst = false /\
  running mid_burst = false /\ running (transmitter_run mid_burst) = true /\
  option_map pinWrites (ticks table_10 30 mid_burst) =
    Some [0; 1; 0; 1; 0; 1] /\
  option_map pinWrites (ticks table_10 30 (transmitter_run mid_burst)) =
    Some [1; 0; 1; 0; 1; 0; 1] /\
  option_map currentState (ticks table_10 30 mid_burst) = Some wait_st /\
  option_map currentState (ticks table_10 30 (transmitter_run mid_burst)) =
    Some sig_high_st.
Proof.
  split; [left; reflexivity|]. repeat split; vm_compute; reflexivity.
Qed.

(** C5: the amended statement three ticks into a burst of period 10 and
    pulse width 25: ten ticks later the two machines differ in the request
    only, and the 26th tick starts the second burst. *)
Lemma run_during_burst_latches_witness :
  eq_except_running mid_burst (transmitter_run mid_burst) /\
  transmitter_run (transmitter_run mid_burst) = transmitter_run mid_burst /\
  (exists s'', ticks table_10 10 (transmitter_run mid_burst) = Some s'' /\
     eq_except_running
       (mkTransmitter sig_high_st 13 false false 25 false 0 10 false true [1; 0; 1])
       s'' /\
     running s'' = true) /\
  ticks table_10 26 mid_burst =
    Some (mkTransmitter wait_st 27 false false 25 false 0 10 false true
            [0; 1; 0; 1; 0; 1]) /\
  (exists s'', ticks table_10 26 (transmitter_run mid_burst) = Some s'' /\
     currentState s'' = sig_high_st /\ running s'' = false /\
     pinWrites s'' = [1; 0; 1; 0; 1; 0; 1]).
Proof.
  destruct (run_during_burst_latches table_10 mid_burst
              (or_introl eq_refl) eq_refl) as (H1 & _ & H3 & H4 & H5).
  split; [exact H1|]. split; [exact H3|]. split.
  - apply (H4 10%nat).
    + apply (burst_run_ticks table_10 10 mid_burst
               (mkTransmitter sig_high_st 13 false false 25 false 0 10 false true
                  [1; 0; 1])).
      run_burst.
    + vm_compute; reflexivity.
  - apply (H5 25%nat
             (mkTransmitter wait_st 27 false false 25 false 0 10 false true
                [0; 1; 0; 1; 0; 1]) 10).
    + apply (burst_run_ticks table_10 25 mid_burst
               (mkTransmitter wait_st 27 false false 25 false 0 10 false true
                  [0; 1; 0; 1; 0; 1])).
      run_burst.
    + vm_compute; reflexivity.
    + reflexivity.
    + reflexivity.
    + reflexivity.
Defined.

(** C6: continuous mode is switched off in SignalLow, the burst ends twenty
    ticks later, and the tick after that starts another burst although
    [transmitter_run] was not called again. *)
Lemma continuous_off_starts_another_burst :
  after_init table_10 (power_on 25)
    ([SetContinuousMode true; Run] ++ repeat Tick 9) low_continuous /\
  currentState low_continuous = sig_low_st /\
  ticks table_10 20 (transmitter_setContinuousMode false low_continuous) =
    Some (mkTransmitter wait_st 27 false true 25 false 0 10 false true
            [0; 1; 0; 1; 0; 1]) /\
  ticks table_10 21 (transmitter_setContinuousMode false low_continuous) =
    Some (mkTransmitter sig_high_st 1 false false 25 false 0 10 false true
            [1; 0; 1; 0; 1; 0; 1]).
Proof. repeat split; vm_compute; reflexivity. Qed.

(** C6: the amended statement for a machine that continuous mode left in
    SignalLow with the request set. *)
Lemma continuous_off_in_signal_low_witness :
  exists n s1,
    burst_run table_10 n (transmitter_setContinuousMode false low_continuous) s1 /\
    currentState s1 = wait_st /\ running s1 = running low_continuous /\
    (running low_continuous = false -> forall j, ticks table_10 j s1 = Some s1) /\
    (running low_continuous = true ->
     exists s2 m s3,
       transmitter_tick table_10 s1 = Some s2 /\ currentState s2 = sig_high_st /\
       running s2 = false /\
       burst_run table_10 m s2 s3 /\ currentState s3 = wait_st /\
       forall j, ticks table_10 j s3 = Some s3).
Proof.
  apply (continuous_off_in_signal_low table_10 low_continuous 10).
  - reflexivity.
  - split; intros H; [discriminate H|reflexivity].
  - cbn; lia.
  - cbn; lia.
  - cbn; lia.
  - vm_compute; discriminate.
  - vm_compute; discriminate.
  - reflexivity.
  - lia.
  - vm_compute; discriminate.
Defined.

(** C7: the tick that finds the timer at 26 leaves SignalHigh for SignalLow;
    the machine is in Wait only after the tick that finds the timer at 27. *)
Lemma no_return_to_wait_at_26 :
  period burst_start = 10 /\ pulseWidth burst_start = 25 /\
  currentState burst_start = sig_high_st /\ signalTimer burst_start = 0 /\
  ticks table_10 26 burst_start =
    Some (mkTransmitter sig_high_st 26 false false 25 false 0 10 false true
            [1; 0; 1; 0; 1]) /\
  ticks table_10 27 burst_start =
    Some (mkTransmitter sig_low_st 27 false false 25 false 0 10 false true
            [0; 1; 0; 1; 0; 1]) /\
  ticks table_10 28 burst_start =
    Some (mkTransmitter wait_st 27 false false 25 false 0 10 false true
            [0; 1; 0; 1; 0; 1]).
Proof. repeat split; vm_compute; reflexivity. Qed.

(** C7: the state changes of the worked case on a concrete machine. *)
Lemma period_10_width_25_transitions_witness :
  transitions table_10 28 burst_start =
  [ (6, sig_high_st, sig_low_st); (10, sig_low_st, sig_high_st);
    (16, sig_high_st, sig_low_st); (20, sig_low_st, sig_high_st);
    (26, sig_high_st, sig_low_st); (27, sig_low_st, wait_st) ] /\
  nth_error (trace table_10 28 burst_start) 26 = Some (sig_low_st, 27) /\
  nth_error (trace table_10 28 burst_start) 27 = Some (wait_st, 27).
Proof.
  destruct (period_10_width_25_transitions table_10 burst_start)
    as [H1 H2]; [reflexivity | reflexivity | reflexivity | reflexivity |].
  split; [exact H1|]. rewrite H2. split; reflexivity.
Defined.

(** C8: with a pulse width of 0 the tick after the one that entered
    SignalHigh leaves the machine in SignalHigh, not in Wait. *)
Lemma zero_width_not_back_after_one_tick :
  pulseWidth (idle_width 0) = 0 /\ continuousModeOn (idle_width 0) = false /\
  ticks table_10 1 (transmitter_run (idle_width 0)) =
    Some (mkTransmitter sig_high_st 1 false false 0 false 0 10 false true [1]) /\
  ticks table_10 2 (transmitter_run (idle_width 0)) =
    Some (mkTransmitter sig_high_st 2 false false 0 false 0 10 false true [1]).
Proof. repeat split; vm_compute; reflexivity. Qed.

(** C8: the amended statement for the period 10: low after 7 ticks, back in
    Wait after 8. *)
Lemma zero_width_pulse_witness :
  (exists s',
     ticks table_10 (Z.to_nat (10 / 2 + 2)) (transmitter_run (idle_width 0)) = Some s' /\
     currentState s' = sig_low_st /\ signalTimer s' = 10 / 2 + 2 /\
     pin_level s' = Some TRANSMITTER_LOW_VALUE) /\
  (exists s',
     ticks table_10 (Z.to_nat (10 / 2 + 3)) (transmitter_run (idle_width 0)) = Some s' /\
     currentState s' = wait_st /\ transmitter_running s' = false /\
     forall j, ticks table_10 j s' = Some s').
Proof.
  destruct (zero_width_pulse table_10 (idle_width 0) 10) as (_ & H2 & H3 & _);
    [reflexivity | reflexivity | reflexivity | reflexivity | lia | ].
  split; [exact H2 | exact H3].
Defined.




(** C10: with a period of 2 a burst started under a pulse width of 70000
    never returns to Wait, but it does not alternate either: after every
    number of ticks the machine is in SignalHigh, never in SignalLow. *)
Lemma wide_pulse_short_period_stays_high :
  65536 <= to_uint32 70000 /\
  table_period table_2 (idle_width 2) = Some 2 /\
  forall n, exists s',
    ticks table_2 (S n)
      (transmitter_run (transmitter_setPulseWidth 70000 (idle_width 2))) = Some s' /\
    currentState s' = sig_high_st /\ currentState s' <> sig_low_st.
Proof.
  split; [vm_compute; discriminate|].
  split; [reflexivity|]. intros n.
  assert (E1 : transmitter_tick table_2
                 (transmitter_run (transmitter_setPulseWidth 70000 (idle_width 2))) =
               Some (mkTransmitter sig_high_st 1 false false 70000 false 0 2
                       false true [1])) by reflexivity.
  cbn [ticks]. rewrite E1. cbn [bind].
  destruct (short_period_stays_high table_2 n
              (mkTransmitter sig_high_st 1 false false 70000 false 0 2 false true [1]))
    as (s' & E & Hs'); cbn; auto; try lia.
  exists s'. split; [exact E|]. split; [exact Hs'|]. rewrite Hs'. discriminate.
Qed.

(** C10: the amended statement for a width of 70000 set three ticks into a
    burst of period 10. *)
Lemma wide_pulse_never_returns_to_wait_witness :
  (forall n, exists s',
     ticks table_10 n (transmitter_setPulseWidth 70000 mid_burst) = Some s' /\
     in_signal s' /\ currentState s' <> wait_st) /\
  (forall n, exists m1 m2 s1 s2,
     (n <= m1)%nat /\ (n <= m2)%nat /\
     ticks table_10 m1 (transmitter_setPulseWidth 70000 mid_burst) = Some s1 /\
     currentState s1 = sig_high_st /\
     ticks table_10 m2 (transmitter_setPulseWidth 70000 mid_burst) = Some s2 /\
     currentState s2 = sig_low_st).
Proof.
  destruct (wide_pulse_never_returns_to_wait table_10 mid_burst 70000)
    as (H1 & _ & H3).
  - lia.
  - left; reflexivity.
  - cbn; lia.
  - cbn; lia.
  - split; [exact H1|]. apply H3. cbn; lia.
Defined.

(** * Worked instances of the further properties *)

(** X1: after a pulse width of -1 and a selection of 70000 the stored values
    are 2^32 - 1 and 112. *)
Lemma values_stay_in_range_witness :
  well_typed
    (mkTransmitter sig_high_st 1 false false 4294967295 false 112 68 false true [1]) /\
  0 <= transmitter_getFrequencyNumber
         (mkTransmitter sig_high_st 1 false false 4294967295 false 112 68 false true [1])
    < 256.
Proof.
  apply (values_stay_in_range sample_table (power_on 20000)
           [SetPulseWidth (-1); Run; Tick; Tick; SetFrequencyNumber 70000]).
  - unfold well_typed; cbn. repeat split; try lia; vm_compute; congruence.
  - vm_compute; reflexivity.
Defined.

(** X2: ticks and setters on an empty frequency table. *)
Lemma quiet_without_run_witness :
  exists s',
    exec_calls [] [Tick; SetFrequencyNumber 300; Tick; SetPulseWidth 5; Tick]
      idle_one_shot = Some s' /\
    idle s' /\ pinWrites s' = pinWrites idle_one_shot.
Proof.
  apply (quiet_without_run []).
  - split; [right; reflexivity|reflexivity].
  - repeat constructor.
Defined.

(** X3: two ticks after a run request the machine is in SignalHigh and the
    pin is high. *)
Lemma pin_high_iff_signal_high_witness :
  (pin_level (mkTransmitter sig_high_st 1 false false 20000 false 0 68 false true [1])
     = Some TRANSMITTER_HIGH_VALUE <->
   currentState (mkTransmitter sig_high_st 1 false false 20000 false 0 68 false true [1])
     = sig_high_st) /\
  (currentState (mkTransmitter sig_high_st 1 false false 20000 false 0 68 false true [1])
     = sig_low_st ->
   pin_level (mkTransmitter sig_high_st 1 false false 20000 false 0 68 false true [1])
     = Some TRANSMITTER_LOW_VALUE).
Proof.
  apply (pin_high_iff_signal_high sample_table (power_on 20000) [Run; Tick; Tick]).
  - discriminate.
  - vm_compute; reflexivity.
Defined.

(** A second [transmitter_init] made while the pin is high does not write the
    pin, so the next burst writes high on high. *)
Example reinit_while_high_repeats_write :
  (s1 <- transmitter_init sample_table (power_on 20000) ;;
   s2 <- exec_calls sample_table [Run; Tick; Tick] s1 ;;
   s3 <- transmitter_init sample_table s2 ;;
   s4 <- exec_calls sample_table [Run; Tick; Tick] s3 ;;
   Some (pinWrites s2, currentState s3, pinWrites s3, pinWrites s4)) =
  Some ([1], init_st, [1], [1; 1]).
Proof. vm_compute. reflexivity. Qed.

(** X4: the write log 37 ticks after a run request. *)
Lemma pin_writes_alternate_witness :
  alternating
    (pinWrites
       (mkTransmitter sig_low_st 36 false false 20000 false 0 68 false true [0; 1])) /\
  starts_high
    (pinWrites
       (mkTransmitter sig_low_st 36 false false 20000 false 0 68 false true [0; 1])).
Proof.
  apply (pin_writes_alternate sample_table (power_on 20000)
           (Run :: repeat Tick 37)
           (mkTransmitter sig_low_st 36 false false 20000 false 0 68 false true [0; 1])).
  - reflexivity.
  - vm_compute; reflexivity.
Defined.

(** X5: the first two ticks after init and a run request. *)
Lemma run_after_init_starts_on_second_tick_witness :
  exists sw sh,
    transmitter_tick sample_table
      (transmitter_run
         (mkTransmitter init_st 0 false false 20000 false 0 68 false true [])) =
      Some sw /\
    currentState sw = wait_st /\ running sw = true /\
    pinWrites sw = pinWrites (power_on 20000) /\
    transmitter_tick sample_table sw = Some sh /\ at_burst_start sh /\
    period sh =
      period (mkTransmitter init_st 0 false false 20000 false 0 68 false true []) /\
    running sh = continuousModeOn (power_on 20000) /\
    pinWrites sh = TRANSMITTER_HIGH_VALUE :: pinWrites (power_on 20000).
Proof.
  apply (run_after_init_starts_on_second_tick sample_table (power_on 20000)).
  vm_compute; reflexivity.
Defined.

(** X6: pulse width 25 and period 10 give a burst of 28 ticks. *)
Lemma one_shot_burst_length_witness :
  one_shot_length 25 10 = 28 /\
  exists s',
    ticks table_10 (Z.to_nat (one_shot_length 25 10))
      (transmitter_run (idle_width 25)) = Some s' /\
    currentState s' = wait_st /\
    (forall m sm,
       (1 <= m < Z.to_nat (one_shot_length 25 10))%nat ->
       ticks table_10 m (transmitter_run (idle_width 25)) = Some sm ->
       in_signal sm).
Proof.
  split; [reflexivity|].
  apply (one_shot_burst_length table_10 (idle_width 25) 25 10);
    try reflexivity; lia.
Defined.

(** X7: selection 3 made during a burst of period 68 in continuous mode: the
    burst ends on period 68 and the next one runs on period 44. *)
Lemma continuous_frequency_change_at_burst_boundary_witness :
  exists k sw sh,
    burst_run sample_table k (transmitter_setFrequencyNumber 3 high_continuous) sw /\
    currentState sw = wait_st /\ period sw = period high_continuous /\
    transmitter_tick sample_table sw = Some sh /\ at_burst_start sh /\
    period sh = 44 /\ running sh = true /\ continuousModeOn sh = true.
Proof.
  apply (continuous_frequency_change_at_burst_boundary sample_table
           high_continuous 3 44).
  - left; reflexivity.
  - split; intros H; [reflexivity|discriminate H].
  - reflexivity.
  - reflexivity.
  - vm_compute; discriminate.
  - vm_compute; discriminate.
  - vm_compute; discriminate.
  - vm_compute; discriminate.
  - reflexivity.
Defined.

(** X8: continuous operation on period 68 and pulse width 200: a burst has
    started again after more than a thousand ticks. *)
Lemma continuous_bursts_repeat_witness :
  exists m s',
    (1000 <= m)%nat /\ ticks sample_table m high_continuous = Some s' /\
    at_burst_start s' /\ same_config high_continuous s'.
Proof.
  destruct (continuous_bursts_repeat sample_table high_continuous) as (_ & H).
  - repeat split.
  - reflexivity.
  - reflexivity.
  - reflexivity.
  - vm_compute; discriminate.
  - vm_compute; discriminate.
  - vm_compute; discriminate.
  - apply (H 1000%nat).
Defined.

(** X10: a pulse width of 1 set three ticks into a burst of period 10. *)
Lemma shortened_pulse_width_ends_burst_witness :
  exists n s',
    burst_run table_10 n (transmitter_setPulseWidth 1 mid_burst) s' /\
    currentState s' = wait_st /\
    pin_level s' = Some TRANSMITTER_LOW_VALUE /\
    (1 <= n)%nat /\ Z.of_nat n <= period mid_burst / 2 + 3 /\
    (currentState mid_burst = sig_low_st -> n = 1%nat).
Proof.
  apply (shortened_pulse_width_ends_burst table_10 mid_burst 1).
  - left; reflexivity.
  - split; intros H; [reflexivity|discriminate H].
  - vm_compute; discriminate.
  - vm_compute; discriminate.
  - reflexivity.
  - vm_compute; discriminate.
Defined.

(** X11: the test loop on a one-shot machine idle in Wait. *)
Lemma test_loop_returns_at_burst_start_witness :
  exists s',
    tick_while_running sample_table 5 (transmitter_run idle_one_shot) = Finished s' /\
    at_burst_start s' /\ running s' = false /\ period s' = 68 /\
    pinWrites s' = TRANSMITTER_HIGH_VALUE :: pinWrites idle_one_shot.
Proof.
  apply (test_loop_returns_at_burst_start sample_table idle_one_shot 68 5).
  - right; reflexivity.
  - reflexivity.
  - reflexivity.
  - lia.
Defined.

(** X12: a thousand ticks of the test loop in continuous mode. *)
Lemma test_loop_never_ends_in_continuous_mode_witness :
  tick_while_running sample_table 1000 (transmitter_run idle_continuous) = OutOfFuel.
Proof.
  apply (test_loop_never_ends_in_continuous_mode sample_table 1000 idle_continuous).
  - reflexivity.
  - unfold table_ok, sample_table. repeat (constructor; [reflexivity|]). constructor.
  - split; cbn; [lia|]. intros [H|H]; discriminate.
Defined.

(** X13: two passes of the test, the switches at 3 and at 12, then button 3
    (mask 8) pressed and released. *)
Lemma runTest_returns_at_burst_start_witness :
  exists s',
    transmitter_runTest sample_table 20000 8 10 (Z.to_nat 33000)
      ([0; 0] ++ 8 :: [8; 0]) [3; 12] (power_on 20000) = Finished s' /\
    currentState s' = sig_high_st /\ signalTimer s' = 1 /\
    pin_level s' = Some TRANSMITTER_HIGH_VALUE /\
    transmitter_running s' = false /\
    transmitter_getFrequencyNumber s' = last [3; 12] 0 mod 10 /\
    table_period sample_table s' = Some (period s') /\
    debugOn s' = false /\ pulseWidth s' = to_uint32 20000.
Proof.
  apply (runTest_returns_at_burst_start sample_table 20000 8 10 (Z.to_nat 33000)
           [0; 0] [3; 12] 8 [8; 0] (power_on 20000)).
  - unfold table_periods_ok, sample_table.
    repeat (constructor; [vm_compute; discriminate|]). constructor.
  - reflexivity.
  - lia.
  - rewrite Z2Nat.id; lia.
  - reflexivity.
  - cbn; lia.
  - discriminate.
  - repeat constructor.
  - discriminate.
  - right; left; reflexivity.
  - reflexivity.
  - repeat (constructor; [lia|]). constructor.
Defined.

(** X14: init and a run on the sample table with the selections 9 and 265. *)
Lemma valid_inputs_never_undefined_witness :
  exists s1 s,
    transmitter_init sample_table (power_on 20000) = Some s1 /\
    exec_calls sample_table
      [SetFrequencyNumber 9; Run; Tick; Tick; SetFrequencyNumber 265; Tick] s1 =
      Some s /\
    (in_signal s -> 0 < period s) /\
    (Z.to_nat (currentFrequency s) < length sample_table)%nat.
Proof.
  apply (valid_inputs_never_undefined sample_table (power_on 20000)).
  - unfold table_ok, sample_table. repeat (constructor; [reflexivity|]). constructor.
  - cbn; lia.
  - repeat (constructor; [cbn; try exact I; lia|]). constructor.
Defined.
